(** * UnrealBridgeREST: the request router and the batch executor

  A shallow embedding of [RESTRouter.cpp] (route table, internal and
  public dispatch) and of the batch endpoint of
  [InfrastructureHandler.cpp] (variable substitution, path extraction,
  the batch loop), together with the properties the specification
  states about them; then the rest of the two files (the life cycle of
  the server, the response sent, the schema endpoint) and the
  properties the code shows.

  Conventions of the embedding.
  - [FString] is a Rocq [string]; characters are 8-bit, and the
    engine's case folding is the ASCII one.
  - [TSharedPtr A] is [option A]; [nullptr] is [None].
  - [TMap FString V] is an insertion-ordered association list with
    unique keys; keys are compared as the engine compares [FString]
    keys, letter case apart.
  - [int32] values are in [Z]; the counters of the batch loop are
    bounded by the length of the request array and cannot wrap.
  - JSON numbers are kept abstract (class [Engine]): the code only
    converts integers into them and prints them.
  - Route handlers are delegates that may act on the editor: they take
    and return a [World]. *)

From Stdlib Require Import ZArith List String Ascii Bool Lia DecimalString.
Import ListNotations.

Set Warnings "-register-all".

Local Open Scope list_scope.
Local Open Scope string_scope.
Local Open Scope Z_scope.

(** ** Engine strings *)

Module FString.

Definition IsUpper (c : ascii) : bool :=
  let n := N_of_ascii c in (N.leb 65 n && N.leb n 90)%N.

Definition IsLower (c : ascii) : bool :=
  let n := N_of_ascii c in (N.leb 97 n && N.leb n 122)%N.

Definition IsDigit (c : ascii) : bool :=
  let n := N_of_ascii c in (N.leb 48 n && N.leb n 57)%N.

(** [\w] of the regular expression engine, on ASCII. *)
Definition IsWordChar (c : ascii) : bool :=
  IsUpper c || IsLower c || IsDigit c || Ascii.eqb c "_".

Definition IsWhitespace (c : ascii) : bool :=
  let n := N_of_ascii c in (N.eqb n 32 || (N.leb 9 n && N.leb n 13))%N.

Definition ToUpperChar (c : ascii) : ascii :=
  if IsLower c then ascii_of_N (N_of_ascii c - 32) else c.

Fixpoint ToUpper (s : string) : string :=
  match s with
  | EmptyString => EmptyString
  | String c s' => String (ToUpperChar c) (ToUpper s')
  end.

Definition IsEmpty (s : string) : bool :=
  match s with EmptyString => true | _ => false end.

(** [FString::RightChop]: drop the first [n] characters. *)
Fixpoint RightChop (n : nat) (s : string) : string :=
  match n, s with
  | O, _ => s
  | S k, String _ s' => RightChop k s'
  | S _, EmptyString => EmptyString
  end.

Fixpoint TakeWhile (p : ascii -> bool) (s : string) : string :=
  match s with
  | String c s' => if p c then String c (TakeWhile p s') else EmptyString
  | EmptyString => EmptyString
  end.

(** [Strnicmp] over the length of [Prefix]: whether [s] begins with
    the characters of [Prefix], letter case apart. *)
Fixpoint PrefixMatches (Prefix s : string) : bool :=
  match Prefix, s with
  | EmptyString, _ => true
  | String a p', String b s' =>
      Ascii.eqb (ToUpperChar a) (ToUpperChar b) && PrefixMatches p' s'
  | String _ _, EmptyString => false
  end.

(** [FString::StartsWith] with its default [ESearchCase::IgnoreCase];
    an empty prefix starts nothing. *)
Definition StartsWith (Prefix s : string) : bool :=
  negb (IsEmpty Prefix) && PrefixMatches Prefix s.

(** The scan of [FString::Replace]: [Skip] characters of a match just
    replaced are still to be passed over. *)
Fixpoint ReplaceScan (Skip : nat) (From To s : string) : string :=
  match s with
  | EmptyString => EmptyString
  | String c s' =>
      match Skip with
      | S k => ReplaceScan k From To s'
      | O =>
          if PrefixMatches From s
          then To ++ ReplaceScan (String.length From - 1) From To s'
          else String c (ReplaceScan O From To s')
      end
  end.

(** [FString::Replace(From, To)]: every occurrence of [From], found
    left to right and ignoring case (the default search case), is
    replaced by [To]; an empty [From] replaces nothing. *)
Definition Replace (s From To : string) : string :=
  if IsEmpty s || IsEmpty From then s else ReplaceScan O From To s.

(** One pass of [FString::ParseIntoArray(Parts, ".")]: [Cur] is the
    piece being read, most recent character first; empty pieces are
    culled. *)
Fixpoint ParseScan (Delim : ascii) (Cur : list ascii) (s : string)
  : list string :=
  let Flush (rest : list string) :=
    match Cur with
    | [] => rest
    | _ => string_of_list_ascii (rev Cur) :: rest
    end in
  match s with
  | EmptyString => Flush []
  | String c s' =>
      if Ascii.eqb c Delim then Flush (ParseScan Delim [] s')
      else ParseScan Delim (c :: Cur) s'
  end.

Definition ParseIntoArray (s : string) (Delim : ascii) : list string :=
  ParseScan Delim [] s.

Definition INT32_MAX : Z := 2147483647.
Definition INT32_MIN : Z := -2147483648.

Fixpoint AtoiDigits (acc : Z) (s : string) : Z :=
  match s with
  | String c s' =>
      if IsDigit c
      then AtoiDigits (10 * acc + (Z.of_N (N_of_ascii c) - 48)) s'
      else acc
  | EmptyString => acc
  end.

Fixpoint SkipWhitespace (s : string) : string :=
  match s with
  | String c s' => if IsWhitespace c then SkipWhitespace s' else s
  | EmptyString => EmptyString
  end.

(** [FCString::Atoi]: leading white space, an optional sign, decimal
    digits. What a value outside [int32] reads as is left to the C
    runtime; it is clamped here, as the runtime of the Windows editor
    does. *)
Definition Atoi (s : string) : Z :=
  let Clamp (v : Z) := Z.max INT32_MIN (Z.min INT32_MAX v) in
  match SkipWhitespace s with
  | String "-" s' => Clamp (- AtoiDigits 0 s')
  | String "+" s' => Clamp (AtoiDigits 0 s')
  | s' => Clamp (AtoiDigits 0 s')
  end.

(** [FString::ToBool]. *)
Definition ToBool (s : string) : bool :=
  let u := ToUpper s in
  if String.eqb u "TRUE" || String.eqb u "YES" || String.eqb u "ON" then true
  else if String.eqb u "FALSE" || String.eqb u "NO" || String.eqb u "OFF"
       then false
       else negb (Atoi s =? 0).

(** [FString::Equals(Other, ESearchCase::IgnoreCase)]. *)
Definition EqualsIgnoreCase (a b : string) : bool :=
  String.eqb (ToUpper a) (ToUpper b).

(** Whether the character [c] occurs in [s]. *)
Fixpoint HasChar (c : ascii) (s : string) : bool :=
  match s with
  | EmptyString => false
  | String d s' => Ascii.eqb d c || HasChar c s'
  end.

End FString.

(** ** Containers and pointers *)

Definition TSharedPtr (A : Type) : Type := option A.

Definition IsValid {A : Type} (p : TSharedPtr A) : bool :=
  match p with Some _ => true | None => false end.

(** [TMap<FString, V>]. *)
Definition TMap (V : Type) : Type := list (string * V).

Module Map.

(** The comparison of two [FString] keys: letter case apart. *)
Definition KeyEq (a b : string) : bool := FString.EqualsIgnoreCase a b.

Fixpoint Find {V : Type} (m : TMap V) (Key : string) : option V :=
  match m with
  | [] => None
  | (k, v) :: rest => if KeyEq k Key then Some v else Find rest Key
  end.

Definition Contains {V : Type} (m : TMap V) (Key : string) : bool :=
  match Find m Key with Some _ => true | None => false end.

(** [TMap::Add]: the entry of an equal key is replaced where it
    stands, key and value, and a new key is appended. *)
Fixpoint Add {V : Type} (m : TMap V) (Key : string) (Value : V) : TMap V :=
  match m with
  | [] => [(Key, Value)]
  | (k, v) :: rest =>
      if KeyEq k Key then (Key, Value) :: rest
      else (k, v) :: Add rest Key Value
  end.

End Map.

(** ** The engine's JSON values *)

(** What the embedding leaves to the engine: the JSON numbers, and
    [bAsObjectYieldsEmpty], which says what [FJsonValue::AsObject] hands
    back for a value that is not an object, a shared empty object or a
    null pointer. The code tests both the pointer and the fields it
    needs, and the properties below hold either way. *)
Class Engine : Type := {
  Number : Type;
  NumberOfInt32 : Z -> Number;
  PrintfG : Number -> string;
  SanitizeFloat : Number -> string;
  NumberIsZero : Number -> bool;
  bAsObjectYieldsEmpty : bool
}.

Section Json.

Context {E : Engine}.

Inductive FJsonValue : Type :=
| JNull
| JBool (b : bool)
| JNumber (n : Number)
| JString (s : string)
| JArray (a : list FJsonValue)
| JObject (Values : list (string * FJsonValue)).

Definition FJsonObject : Type := TMap FJsonValue.

(** [MakeShared<FJsonObject>()]. *)
Definition MakeSharedObject : FJsonObject := [].

Definition HasField (o : FJsonObject) (Name : string) : bool :=
  Map.Contains o Name.

Definition TryGetField (o : FJsonObject) (Name : string)
  : TSharedPtr FJsonValue :=
  Map.Find o Name.

(** [FJsonObject::GetField]: a missing field reads as a null value. *)
Definition GetField (o : FJsonObject) (Name : string) : FJsonValue :=
  match Map.Find o Name with Some v => v | None => JNull end.

Definition AsObject (v : FJsonValue) : TSharedPtr FJsonObject :=
  match v with
  | JObject o => Some o
  | _ => if bAsObjectYieldsEmpty then Some MakeSharedObject else None
  end.

Definition AsString (v : FJsonValue) : string :=
  match v with
  | JString s => s
  | JNumber n => SanitizeFloat n
  | JBool b => if b then "true" else "false"
  | _ => EmptyString
  end.

Definition AsBool (v : FJsonValue) : bool :=
  match v with
  | JBool b => b
  | JNumber n => negb (NumberIsZero n)
  | JString s => FString.ToBool s
  | _ => false
  end.

Definition GetObjectField (o : FJsonObject) (Name : string)
  : TSharedPtr FJsonObject :=
  AsObject (GetField o Name).

Definition GetStringField (o : FJsonObject) (Name : string) : string :=
  AsString (GetField o Name).

Definition GetBoolField (o : FJsonObject) (Name : string) : bool :=
  AsBool (GetField o Name).

Definition TryGetArrayField (o : FJsonObject) (Name : string)
  : option (list FJsonValue) :=
  match Map.Find o Name with
  | Some (JArray a) => Some a
  | _ => None
  end.

Definition SetField (o : FJsonObject) (Name : string) (v : FJsonValue)
  : FJsonObject :=
  Map.Add o Name v.

Definition SetBoolField (o : FJsonObject) (Name : string) (b : bool) :=
  SetField o Name (JBool b).

Definition SetStringField (o : FJsonObject) (Name : string) (s : string) :=
  SetField o Name (JString s).

Definition SetNumberField (o : FJsonObject) (Name : string) (n : Z) :=
  SetField o Name (JNumber (NumberOfInt32 n)).

Definition SetArrayField (o : FJsonObject) (Name : string)
  (a : list FJsonValue) :=
  SetField o Name (JArray a).

(** [MakeShared<FJsonValueObject>(p)]; [SetObjectField] stores a null
    value for a null pointer. *)
Definition FJsonValueObject (p : TSharedPtr FJsonObject) : FJsonValue :=
  match p with Some o => JObject o | None => JNull end.

Definition SetObjectField (o : FJsonObject) (Name : string)
  (p : TSharedPtr FJsonObject) :=
  SetField o Name (FJsonValueObject p).

(** [FJsonObject::TryGetStringField]: strings, and the numbers and
    booleans the engine prints as strings. *)
Definition TryGetStringField (o : FJsonObject) (Name : string)
  : option string :=
  match Map.Find o Name with
  | Some (JString s) => Some s
  | Some (JNumber n) => Some (SanitizeFloat n)
  | Some (JBool b) => Some (if b then "true" else "false")
  | _ => None
  end.

End Json.

(** ** The regular expression of the batch templates *)

Module Regex.

(** One match of [\$(\d+)(\.([\w\.]+))?]: the capture groups the code
    reads. A group that took no part in the match reads as empty. *)
Record FRegexMatch : Type := {
  CaptureGroup0 : string;
  CaptureGroup1 : string;
  CaptureGroup3 : string
}.

Definition IsPathChar (c : ascii) : bool :=
  FString.IsWordChar c || Ascii.eqb c ".".

(** The pattern tried at the head of [s]. Both repetitions are greedy
    and nothing follows the optional group, so the first attempt is the
    match. *)
Definition MatchHere (s : string) : option FRegexMatch :=
  match s with
  | String "$" rest =>
      let Digits := FString.TakeWhile FString.IsDigit rest in
      if FString.IsEmpty Digits then None
      else
        let Bare := {| CaptureGroup0 := String "$" Digits;
                       CaptureGroup1 := Digits;
                       CaptureGroup3 := EmptyString |} in
        match FString.RightChop (String.length Digits) rest with
        | String "." tail =>
            let Path := FString.TakeWhile IsPathChar tail in
            if FString.IsEmpty Path then Some Bare
            else Some {| CaptureGroup0 :=
                           String "$" Digits ++ String "." Path;
                         CaptureGroup1 := Digits;
                         CaptureGroup3 := Path |}
        | _ => Some Bare
        end
  | _ => None
  end.

(** [while (Matcher.FindNext())]: the successive matches, left to
    right, none overlapping the one before. *)
Fixpoint FindFrom (Skip : nat) (s : string) : list FRegexMatch :=
  match s with
  | EmptyString => []
  | String _ s' =>
      match Skip with
      | S k => FindFrom k s'
      | O =>
          match MatchHere s with
          | Some m => m :: FindFrom (String.length (CaptureGroup0 m) - 1) s'
          | None => FindFrom O s'
          end
      end
  end.

Definition FindAll (s : string) : list FRegexMatch := FindFrom O s.

End Regex.

(** ** RESTRouter.h / RESTRouter.cpp *)

Inductive ERESTMethod : Type := GET | POST | PUT | DELETE.

(** The verb flags of the engine's HTTP server. *)
Definition VERB_GET : Z := Z.shiftl 1 0.
Definition VERB_POST : Z := Z.shiftl 1 1.
Definition VERB_PUT : Z := Z.shiftl 1 2.
Definition VERB_DELETE : Z := Z.shiftl 1 4.

Definition EnumHasAnyFlags (Flags Contains : Z) : bool :=
  negb (Z.land Flags Contains =? 0).

(** What [ParseRequest] reads of the engine's [FHttpServerRequest]. *)
Record FHttpServerRequest : Type := {
  RelativePath : string;
  Verb : Z;
  HttpQueryParams : TMap string;
  HttpBody : string
}.

Section Router.

Context {E : Engine}.
Context {World : Type}.

Record FRESTRequest : Type := {
  Path : string;
  Method : ERESTMethod;
  QueryParams : TMap string;
  PathParams : TMap string;
  Body : string;
  JsonBody : TSharedPtr FJsonObject
}.

(** [ResponseJson] is the [JsonBody] of the response. *)
Record FRESTResponse : Type := {
  StatusCode : Z;
  ResponseJson : TSharedPtr FJsonObject;
  RawBody : string
}.

Definition Ok (Json : TSharedPtr FJsonObject) : FRESTResponse :=
  {| StatusCode := 200; ResponseJson := Json; RawBody := EmptyString |}.

Definition Error (Code : Z) (ErrorCode Message : string) : FRESTResponse :=
  {| StatusCode := Code;
     ResponseJson :=
       Some (SetStringField
               (SetStringField
                  (SetBoolField MakeSharedObject "success" false)
                  "error" ErrorCode)
               "message" Message);
     RawBody := EmptyString |}.

Definition NotFound (Message : string) : FRESTResponse :=
  Error 404 "NOT_FOUND" Message.

Definition BadRequest (Message : string) : FRESTResponse :=
  Error 400 "BAD_REQUEST" Message.

Definition ServerError (Message : string) : FRESTResponse :=
  Error 500 "SERVER_ERROR" Message.

(** A route handler delegate: [None] is a delegate that is not bound;
    a bound one runs against the editor's state. *)
Definition FRESTRouteHandler : Type :=
  option (FRESTRequest -> World -> FRESTResponse * World).

Record FRESTRouter : Type := {
  Routes : TMap FRESTRouteHandler
}.

(** The [switch] on the method that opens [RegisterRoute],
    [DispatchInternal] and [HandleRequest]. *)
Definition MethodString (m : ERESTMethod) : string :=
  match m with
  | GET => "GET"
  | POST => "POST"
  | PUT => "PUT"
  | DELETE => "DELETE"
  end.

(** [FString::Printf(TEXT("%s:%s"), *MethodString, *Path)]. *)
Definition RouteKey (m : ERESTMethod) (p : string) : string :=
  MethodString m ++ ":" ++ p.

Definition RegisterRoute (Router : FRESTRouter) (m : ERESTMethod)
  (p : string) (Handler : FRESTRouteHandler) : FRESTRouter :=
  {| Routes := Map.Add (Routes Router) (RouteKey m p) Handler |}.

Definition DispatchInternal (Router : FRESTRouter) (Request : FRESTRequest)
  (w : World) : FRESTResponse * World :=
  let Key := RouteKey (Method Request) (Path Request) in
  match Map.Find (Routes Router) Key with
  | None => (NotFound ("Route not found: " ++ Key), w)
  | Some None => (ServerError "Route handler not bound", w)
  | Some (Some Execute) => Execute Request w
  end.

Section Transport.

(** [FJsonSerializer::Deserialize] into an object pointer: [None] when
    the text is not a JSON object. *)
Variable Deserialize : string -> TSharedPtr FJsonObject.

Definition ParseRequest (Request : FHttpServerRequest) : FRESTRequest :=
  let FullPath := RelativePath Request in
  let ApiPrefix := "/api/v1" in
  let Path0 :=
    if FString.StartsWith ApiPrefix FullPath
    then FString.RightChop (String.length ApiPrefix) FullPath
    else FullPath in
  let Path1 :=
    if negb (FString.StartsWith "/" Path0) then "/" ++ Path0 else Path0 in
  let Path2 := if FString.IsEmpty Path1 then "/" else Path1 in
  let V := Verb Request in
  let ParsedMethod :=
    if EnumHasAnyFlags V VERB_GET then GET
    else if EnumHasAnyFlags V VERB_POST then POST
    else if EnumHasAnyFlags V VERB_PUT then PUT
    else if EnumHasAnyFlags V VERB_DELETE then DELETE
    else GET in
  let Params :=
    fold_left (fun acc Param => Map.Add acc (fst Param) (snd Param))
      (HttpQueryParams Request) [] in
  let HasBody := negb (FString.IsEmpty (HttpBody Request)) in
  let Text :=
    if HasBody
    then FString.TakeWhile (fun c => negb (Ascii.eqb c zero))
           (HttpBody Request)
    else EmptyString in
  {| Path := Path2;
     Method := ParsedMethod;
     QueryParams := Params;
     PathParams := [];
     Body := Text;
     JsonBody := if HasBody then Deserialize Text else None |}.

(** [HandleRequest], up to the response it hands to [BuildResponse];
    serialising it and calling [OnComplete] belong to the transport. *)
Definition HandleRequest (Router : FRESTRouter)
  (Request : FHttpServerRequest) (w : World) : FRESTResponse * World :=
  let ParsedRequest := ParseRequest Request in
  let Key := RouteKey (Method ParsedRequest) (Path ParsedRequest) in
  match Map.Find (Routes Router) Key with
  | Some Handler =>
      match Handler with
      | Some Execute => Execute ParsedRequest w
      | None => (ServerError "Route handler not bound", w)
      end
  | None => (NotFound ("No handler for " ++ Key), w)
  end.

End Transport.

End Router.

(** ** InfrastructureHandler.cpp: the batch endpoint *)

Section InfrastructureHandler.

Context {E : Engine}.
Context {World : Type}.

(** The [for] loop of [ExtractJsonPath] over [Parts[0 .. Num-2]];
    [None] is its early [return nullptr]. *)
Fixpoint WalkParents (Current : TSharedPtr FJsonObject)
  (Parts : list string) : option (TSharedPtr FJsonObject) :=
  match Parts with
  | [] => Some Current
  | [_] => Some Current
  | Part :: Rest =>
      match Current with
      | None => None
      | Some o =>
          if negb (HasField o Part) then None
          else WalkParents (GetObjectField o Part) Rest
      end
  end.

Definition ExtractJsonPath (Root : TSharedPtr FJsonObject) (JsonPath : string)
  : TSharedPtr FJsonValue :=
  let Parts := FString.ParseIntoArray JsonPath "." in
  match WalkParents Root Parts with
  | None => None
  | Some Current =>
      match Current with
      | Some o =>
          let Last := List.last Parts EmptyString in
          if (0 <? Z.of_nat (List.length Parts)) && HasField o Last
          then TryGetField o Last
          else None
      | None => None
      end
  end.

(** The body of the [while (Matcher.FindNext())] loop of
    [ResolveStringVariables]: what one match does to [Result]. *)
Definition ResolveMatch (PreviousResults : list (TSharedPtr FJsonObject))
  (Result : string) (m : Regex.FRegexMatch) : string :=
  let FullMatch := Regex.CaptureGroup0 m in
  let Index := FString.Atoi (Regex.CaptureGroup1 m) in
  let JsonPath := Regex.CaptureGroup3 m in
  if (0 <=? Index) && (Index <? Z.of_nat (List.length PreviousResults))
  then
    let ResultData := nth (Z.to_nat Index) PreviousResults None in
    if IsValid ResultData
    then
      if FString.IsEmpty JsonPath then Result
      else
        match ExtractJsonPath ResultData JsonPath with
        | Some (JString s) => FString.Replace Result FullMatch s
        | Some (JNumber n) => FString.Replace Result FullMatch (PrintfG n)
        | _ => Result
        end
    else Result
  else Result.

(** The matcher runs over [Value]; the replacements act on [Result]. *)
Definition ResolveStringVariables (Value : string)
  (PreviousResults : list (TSharedPtr FJsonObject)) : string :=
  fold_left (ResolveMatch PreviousResults) (Regex.FindAll Value) Value.

(** What [ResolveVariableReferences] stores in [Resolved] for a field
    holding [Value]; a nested object is resolved by the recursive call. *)
Fixpoint ResolveField (PreviousResults : list (TSharedPtr FJsonObject))
  (Value : FJsonValue) {struct Value} : FJsonValue :=
  match Value with
  | JString s => JString (ResolveStringVariables s PreviousResults)
  | JObject NestedObj =>
      FJsonValueObject
        (Some (fold_left
                 (fun Resolved Field =>
                    SetField Resolved (fst Field)
                      (ResolveField PreviousResults (snd Field)))
                 NestedObj MakeSharedObject))
  | _ => Value
  end.

Definition ResolveVariableReferences (Body : TSharedPtr FJsonObject)
  (PreviousResults : list (TSharedPtr FJsonObject))
  : TSharedPtr FJsonObject :=
  match Body with
  | None => None
  | Some Values =>
      Some (fold_left
              (fun Resolved Field =>
                 SetField Resolved (fst Field)
                   (ResolveField PreviousResults (snd Field)))
              Values MakeSharedObject)
  end.

(** [StatusCode >= 200 && StatusCode < 300]. *)
Definition Is2xx (Code : Z) : bool := (200 <=? Code) && (Code <? 300).

(** The cascade that follows [ERESTMethod Method = ERESTMethod::GET]. *)
Definition ParseMethod (MethodStr : string) : ERESTMethod :=
  if String.eqb MethodStr "POST" then POST
  else if String.eqb MethodStr "PUT" then PUT
  else if String.eqb MethodStr "DELETE" then DELETE
  else GET.

(** The result recorded for an array element that is not an object. *)
Definition ErrorResult (Index : Z) : FJsonObject :=
  SetStringField
    (SetBoolField (SetNumberField MakeSharedObject "index" Index)
       "success" false)
    "error" "Invalid request object".

(** The [InternalRequest] built for the step [ReqObj], with [Results]
    as they stand when the step is reached. *)
Definition BuildInternalRequest (ReqObj : FJsonObject)
  (Results : list (TSharedPtr FJsonObject)) : @FRESTRequest E :=
  let MethodStr := FString.ToUpper (GetStringField ReqObj "method") in
  let StepBody :=
    if HasField ReqObj "body"
    then ResolveVariableReferences (GetObjectField ReqObj "body") Results
    else None in
  {| Path := GetStringField ReqObj "path";
     Method := ParseMethod MethodStr;
     QueryParams := [];
     PathParams := [];
     Body := EmptyString;
     JsonBody := StepBody |}.

(** The result recorded for a dispatched step. *)
Definition BuildResult (Index : Z) (ReqObj : FJsonObject)
  (InternalResponse : @FRESTResponse E) : FJsonObject :=
  let MethodStr := FString.ToUpper (GetStringField ReqObj "method") in
  let Code := StatusCode InternalResponse in
  let Result :=
    SetBoolField
      (SetNumberField
         (SetStringField
            (SetStringField
               (SetNumberField MakeSharedObject "index" Index)
               "method" MethodStr)
            "path" (GetStringField ReqObj "path"))
         "status" Code)
      "success" (Is2xx Code) in
  if IsValid (ResponseJson InternalResponse)
  then SetObjectField Result "data" (ResponseJson InternalResponse)
  else Result.

(** What the loop of [HandleBatch] leaves behind. *)
Record FBatchRun : Type := {
  Results : list (TSharedPtr FJsonObject);
  Completed : Z;
  Failed : Z;
  After : World
}.

(** The [for] loop of [HandleBatch]; [Pending] is what is left of
    [RequestsArray] from position [Index] on. Returning without a
    recursive call is the [break]. *)
Fixpoint BatchLoop (Router : @FRESTRouter E World) (bStopOnError : bool)
  (Pending : list FJsonValue) (Index : Z)
  (Acc : list (TSharedPtr FJsonObject)) (nCompleted nFailed : Z)
  (w : World) : FBatchRun :=
  match Pending with
  | [] =>
      {| Results := Acc; Completed := nCompleted; Failed := nFailed;
         After := w |}
  | Step :: Rest =>
      match AsObject Step with
      | None =>
          let Acc' := (Acc ++ [Some (ErrorResult Index)])%list in
          if bStopOnError
          then {| Results := Acc'; Completed := nCompleted;
                  Failed := nFailed + 1; After := w |}
          else BatchLoop Router bStopOnError Rest (Index + 1) Acc'
                 nCompleted (nFailed + 1) w
      | Some ReqObj =>
          let InternalRequest := BuildInternalRequest ReqObj Acc in
          let (InternalResponse, w') :=
            DispatchInternal Router InternalRequest w in
          let Acc' :=
            (Acc ++ [Some (BuildResult Index ReqObj InternalResponse)])%list in
          if Is2xx (StatusCode InternalResponse)
          then BatchLoop Router bStopOnError Rest (Index + 1) Acc'
                 (nCompleted + 1) nFailed w'
          else if bStopOnError
               then {| Results := Acc'; Completed := nCompleted;
                       Failed := nFailed + 1; After := w' |}
               else BatchLoop Router bStopOnError Rest (Index + 1) Acc'
                      nCompleted (nFailed + 1) w'
      end
  end.

(** The [options.stop_on_error] of the batch body, [true] by default. *)
Definition StopOnError (Body : FJsonObject) : bool :=
  if HasField Body "options"
  then
    match GetObjectField Body "options" with
    | Some Options =>
        if HasField Options "stop_on_error"
        then GetBoolField Options "stop_on_error"
        else true
    | None => true
    end
  else true.

(** The response object of a finished loop. *)
Definition BatchResponse (Run : FBatchRun) : FJsonObject :=
  SetNumberField
    (SetNumberField
       (SetArrayField
          (SetBoolField MakeSharedObject "success" (Failed Run =? 0))
          "results" (map FJsonValueObject (Results Run)))
       "completed" (Completed Run))
    "failed" (Failed Run).

(** [RouterRef] is the pointer [RegisterRoutes] sets, read when the
    request arrives. *)
Definition HandleBatch (RouterRef : TSharedPtr (@FRESTRouter E World))
  (Request : @FRESTRequest E) (w : World) : @FRESTResponse E * World :=
  match RouterRef with
  | None => (ServerError "Router not available", w)
  | Some Router =>
      match JsonBody Request with
      | None => (BadRequest "Missing required field: requests (array)", w)
      | Some Body =>
          match TryGetArrayField Body "requests" with
          | None =>
              (BadRequest "Missing required field: requests (array)", w)
          | Some RequestsArray =>
              let Run :=
                BatchLoop Router (StopOnError Body) RequestsArray 0 [] 0 0 w in
              (Ok (Some (BatchResponse Run)), After Run)
          end
      end
  end.

End InfrastructureHandler.

(** ** RESTRouter.cpp: the server around the route table *)

(** What the code reads of the engine's HTTP server module: whether
    [GetHttpRouter(Port)] yields a router, and whether [BindRoute] yields
    a handle. *)
Record FHttpServerModule : Type := {
  GetHttpRouter : Z -> bool;
  BindRoute : bool
}.

(** What [FHttpServerResponse::Create(Body, ContentType)] builds: the
    code it sets is 200, and [BuildResponse] sets no other. *)
Record FHttpServerResponse : Type := {
  Code : Z;
  ContentType : string;
  ResponseText : string
}.

Section Server.

Context {E : Engine}.
Context {World : Type}.

(** [IRESTHandler], as the router and the schema endpoint use it. The
    endpoint schemas come from [MakeShared] and are never null; the
    handlers of the plug-in use the router they are given to register
    routes and for nothing else. *)
Record IRESTHandler : Type := {
  GetBasePath : string;
  GetHandlerName : string;
  GetDescription : string;
  GetEndpointSchemas : list FJsonObject;
  RegisterRoutes : @FRESTRouter E World -> @FRESTRouter E World;
  Shutdown : World -> World
}.

(** The members of [FRESTRouter] beside the route table. *)
Record FRouterState : Type := {
  Table : @FRESTRouter E World;
  RegisteredHandlers : list (TSharedPtr IRESTHandler);
  HttpRouterValid : bool;
  RouteHandleValid : bool;
  bIsRunning : bool;
  CurrentPort : Z
}.

(** [FRESTRouter::FRESTRouter()]. *)
Definition NewRouter : FRouterState :=
  {| Table := {| Routes := [] |};
     RegisteredHandlers := [];
     HttpRouterValid := false;
     RouteHandleValid := false;
     bIsRunning := false;
     CurrentPort := 0 |}.

(** The names the two lambdas of [Start] list. *)
Definition HandlerNames (Handlers : list (TSharedPtr IRESTHandler))
  : list FJsonValue :=
  flat_map
    (fun Handler =>
       match Handler with
       | Some H => [JString (GetHandlerName H)]
       | None => []
       end)
    Handlers.

(** The lambda [Start] binds to [GET /health], applied to the router it
    captures. *)
Definition HealthLambda (This : FRouterState) (Request : @FRESTRequest E)
  : @FRESTResponse E :=
  Ok (Some (SetArrayField
              (SetNumberField
                 (SetStringField
                    (SetBoolField MakeSharedObject "success" true)
                    "status" "running")
                 "port" (CurrentPort This))
              "handlers" (HandlerNames (RegisteredHandlers This)))).

(** The lambda [Start] binds to [GET /handlers]. *)
Definition HandlersLambda (This : FRouterState) (Request : @FRESTRequest E)
  : @FRESTResponse E :=
  let Entries :=
    flat_map
      (fun Handler =>
         match Handler with
         | Some H =>
             [JObject
                (SetStringField
                   (SetStringField
                      (SetStringField MakeSharedObject
                         "name" (GetHandlerName H))
                      "path" (GetBasePath H))
                   "description" (GetDescription H))]
         | None => []
         end)
      (RegisteredHandlers This) in
  Ok (Some (SetArrayField (SetBoolField MakeSharedObject "success" true)
              "handlers" Entries)).

Section Lifecycle.

(** [CreateLambda] with [this] captured: the delegate runs the lambda
    on the router as it is when the request arrives. *)
Variable CaptureThis :
  (FRouterState -> @FRESTRequest E -> @FRESTResponse E) ->
  @FRESTRequest E -> World -> @FRESTResponse E * World.

Definition Start (Http : FHttpServerModule) (This : FRouterState)
  (Port : Z) : bool * FRouterState :=
  if bIsRunning This then (false, This)
  else
    let Got := GetHttpRouter Http Port in
    if negb Got
    then (false,
          {| Table := Table This;
             RegisteredHandlers := RegisteredHandlers This;
             HttpRouterValid := Got;
             RouteHandleValid := RouteHandleValid This;
             bIsRunning := bIsRunning This;
             CurrentPort := CurrentPort This |})
    else
      let Bound := BindRoute Http in
      if negb Bound
      then (false,
            {| Table := Table This;
               RegisteredHandlers := RegisteredHandlers This;
               HttpRouterValid := false;
               RouteHandleValid := Bound;
               bIsRunning := bIsRunning This;
               CurrentPort := CurrentPort This |})
      else
        (true,
         {| Table :=
              RegisterRoute
                (RegisterRoute (Table This) GET "/health"
                   (Some (CaptureThis HealthLambda)))
                GET "/handlers" (Some (CaptureThis HandlersLambda));
            RegisteredHandlers := RegisteredHandlers This;
            HttpRouterValid := Got;
            RouteHandleValid := Bound;
            bIsRunning := true;
            CurrentPort := Port |}).

End Lifecycle.

(** [Stop]: the handlers are shut down in the order they were
    registered, then the members are cleared. *)
Definition Stop (This : FRouterState) (w : World) : FRouterState * World :=
  if negb (bIsRunning This) then (This, w)
  else
    (NewRouter,
     fold_left
       (fun w' Handler =>
          match Handler with
          | Some H => Shutdown H w'
          | None => w'
          end)
       (RegisteredHandlers This) w).

Definition RegisterHandler (This : FRouterState)
  (Handler : TSharedPtr IRESTHandler) : FRouterState :=
  match Handler with
  | None => This
  | Some H =>
      {| Table := RegisterRoutes H (Table This);
         RegisteredHandlers := (RegisteredHandlers This ++ [Handler])%list;
         HttpRouterValid := HttpRouterValid This;
         RouteHandleValid := RouteHandleValid This;
         bIsRunning := bIsRunning This;
         CurrentPort := CurrentPort This |}
  end.

Section Sending.

(** [FJsonSerializer::Serialize] of an object, and
    [FJsonSerializer::Deserialize] as in [ParseRequest]. *)
Variable Serialize : FJsonObject -> string.
Variable Deserialize : string -> TSharedPtr FJsonObject.

Definition BuildResponse (Response : @FRESTResponse E)
  : FHttpServerResponse :=
  let ResponseBody :=
    match ResponseJson Response with
    | Some Json => Serialize Json
    | None =>
        if negb (FString.IsEmpty (RawBody Response)) then RawBody Response
        else "{}"
    end in
  {| Code := 200;
     ContentType := "application/json";
     ResponseText := ResponseBody |}.

(** The response [HandleRequest] hands to [OnComplete]. *)
Definition HandleRequestOnComplete (Router : @FRESTRouter E World)
  (Request : FHttpServerRequest) (w : World) : FHttpServerResponse * World :=
  let (Response, w') := HandleRequest Deserialize Router Request w in
  (BuildResponse Response, w').

End Sending.

End Server.

(** ** InfrastructureHandler.cpp: registration and the schema endpoint *)

Section Schema.

Context {E : Engine}.
Context {World : Type}.

(** [FInfrastructureHandler::RegisterRoutes], given the three delegates
    [CreateRaw] binds to the handler's methods. *)
Definition InfrastructureRegisterRoutes
  (HealthDelegate SchemaDelegate BatchDelegate
     : @FRESTRequest E -> World -> @FRESTResponse E * World)
  (Router : @FRESTRouter E World) : @FRESTRouter E World :=
  RegisterRoute
    (RegisterRoute
       (RegisterRoute Router GET "/health" (Some HealthDelegate))
       GET "/schema" (Some SchemaDelegate))
    POST "/batch" (Some BatchDelegate).

(** The infrastructure handler as an [IRESTHandler]. *)
Definition FInfrastructureHandler
  (HealthDelegate SchemaDelegate BatchDelegate
     : @FRESTRequest E -> World -> @FRESTResponse E * World)
  : @IRESTHandler E World :=
  {| GetBasePath := EmptyString;
     GetHandlerName := "Infrastructure";
     GetDescription := "Server health and API discovery";
     GetEndpointSchemas := [];
     RegisterRoutes :=
       InfrastructureRegisterRoutes HealthDelegate SchemaDelegate
         BatchDelegate;
     Shutdown := fun w => w |}.

Implicit Types (Handlers : list (TSharedPtr (@IRESTHandler E World))).

Fixpoint FindHandlerByName Handlers (Name : string)
  : TSharedPtr (@IRESTHandler E World) :=
  match Handlers with
  | [] => None
  | Handler :: Rest =>
      match Handler with
      | Some H =>
          if FString.EqualsIgnoreCase (GetHandlerName H) Name then Handler
          else FindHandlerByName Rest Name
      | None => FindHandlerByName Rest Name
      end
  end.

(** One turn of the loop of [FindHandlerByEndpoint] on the pair
    [(BestMatch, BestMatchLength)]. *)
Definition BetterMatch (EndpointPath : string)
  (Best : TSharedPtr (@IRESTHandler E World) * Z)
  (Handler : TSharedPtr (@IRESTHandler E World))
  : TSharedPtr (@IRESTHandler E World) * Z :=
  match Handler with
  | None => Best
  | Some H =>
      let BasePath := GetBasePath H in
      if FString.StartsWith BasePath EndpointPath
      then
        if snd Best <? Z.of_nat (String.length BasePath)
        then (Handler, Z.of_nat (String.length BasePath))
        else Best
      else Best
  end.

(** The length of the base path of the best match so far. *)
Definition BestLength (Best : TSharedPtr (@IRESTHandler E World)) : Z :=
  match Best with
  | Some H => Z.of_nat (String.length (GetBasePath H))
  | None => 0
  end.

Definition FindHandlerByEndpoint Handlers (EndpointPath : string)
  : TSharedPtr (@IRESTHandler E World) :=
  fst (fold_left (BetterMatch EndpointPath) Handlers (None, 0)).

(** The entry of one handler in the [handlers] array of [BuildSchema]. *)
Definition HandlerJson (H : @IRESTHandler E World) : FJsonObject :=
  SetStringField
    (SetStringField
       (SetStringField MakeSharedObject "name" (GetHandlerName H))
       "base_path" (GetBasePath H))
    "description" (GetDescription H).

Definition BuildSchema Handlers : FJsonObject :=
  let Units :=
    SetStringField
      (SetStringField
         (SetStringField MakeSharedObject
            "distance" "centimeters (100 = 1 meter)")
         "rotation" "degrees (90 = quarter turn)")
      "scale" "multiplier (1.0 = normal size)" in
  let ErrorCodes :=
    SetStringField
      (SetStringField
         (SetStringField
            (SetStringField
               (SetStringField
                  (SetStringField MakeSharedObject
                     "INVALID_PARAMS"
                     "400 - Missing or malformed parameters")
                  "ASSET_NOT_FOUND" "404 - Asset path doesn't exist")
               "ACTOR_NOT_FOUND" "404 - Actor label not in level")
            "CLASS_NOT_FOUND" "404 - Class path invalid")
         "NO_LEVEL_LOADED" "400 - No level currently open")
      "EXECUTION_ERROR" "500 - Runtime error" in
  let HandlersArray :=
    flat_map
      (fun Handler =>
         match Handler with
         | Some H => [JObject (HandlerJson H)]
         | None => []
         end)
      Handlers in
  SetArrayField
    (SetObjectField
       (SetObjectField
          (SetStringField
             (SetStringField MakeSharedObject "api_version" "v1")
             "base_path" "/api/v1")
          "units" (Some Units))
       "error_codes" (Some ErrorCodes))
    "handlers" HandlersArray.

(** The entry of one handler in [BuildFullSchema], and the fields
    [BuildHandlerSchema] sets after [success]. *)
Definition HandlerJsonWithEndpoints (Base : FJsonObject)
  (H : @IRESTHandler E World) : FJsonObject :=
  SetArrayField
    (SetStringField
       (SetStringField
          (SetStringField Base "name" (GetHandlerName H))
          "base_path" (GetBasePath H))
       "description" (GetDescription H))
    "endpoints" (map JObject (GetEndpointSchemas H)).

Definition BuildFullSchema Handlers : FJsonObject :=
  let HandlersArray :=
    flat_map
      (fun Handler =>
         match Handler with
         | Some H => [JObject (HandlerJsonWithEndpoints MakeSharedObject H)]
         | None => []
         end)
      Handlers in
  SetArrayField (BuildSchema Handlers) "handlers" HandlersArray.

Definition BuildHandlerSchema Handlers (HandlerName : string)
  : FJsonObject :=
  match FindHandlerByName Handlers HandlerName with
  | None =>
      SetArrayField
        (SetStringField
           (SetBoolField MakeSharedObject "success" false)
           "error" ("Handler '" ++ HandlerName ++ "' not found"))
        "available_handlers" (HandlerNames Handlers)
  | Some H =>
      HandlerJsonWithEndpoints
        (SetBoolField MakeSharedObject "success" true) H
  end.

(** The three comparisons of [BuildEndpointSchema], each ignoring case. *)
Definition EndpointMatches (EndpointPathOfSchema EndpointPath : string)
  : bool :=
  FString.EqualsIgnoreCase EndpointPathOfSchema EndpointPath
  || FString.EqualsIgnoreCase ("/" ++ EndpointPathOfSchema) EndpointPath
  || FString.EqualsIgnoreCase EndpointPathOfSchema ("/" ++ EndpointPath).

(** The response for a matching endpoint: [success], [handler], then
    every field of the endpoint's schema. *)
Definition EndpointFound (H : @IRESTHandler E World) (Endpoint : FJsonObject)
  : FJsonObject :=
  fold_left
    (fun Response Field => SetField Response (fst Field) (snd Field))
    Endpoint
    (SetStringField (SetBoolField MakeSharedObject "success" true)
       "handler" (GetHandlerName H)).

(** The inner loop of the search, over the endpoints of one handler. *)
Fixpoint SearchEndpoints (H : @IRESTHandler E World)
  (Endpoints : list FJsonObject) (EndpointPath : string)
  : option FJsonObject :=
  match Endpoints with
  | [] => None
  | Endpoint :: Rest =>
      match TryGetStringField Endpoint "path" with
      | Some SchemaPath =>
          if EndpointMatches SchemaPath EndpointPath
          then Some (EndpointFound H Endpoint)
          else SearchEndpoints H Rest EndpointPath
      | None => SearchEndpoints H Rest EndpointPath
      end
  end.

(** The outer loop, over the handlers. *)
Fixpoint SearchHandlers Handlers (EndpointPath : string)
  : option FJsonObject :=
  match Handlers with
  | [] => None
  | Handler :: Rest =>
      match Handler with
      | None => SearchHandlers Rest EndpointPath
      | Some H =>
          match SearchEndpoints H (GetEndpointSchemas H) EndpointPath with
          | Some Response => Some Response
          | None => SearchHandlers Rest EndpointPath
          end
      end
  end.

(** The paths listed when no endpoint matches. *)
Definition AvailableEndpoints Handlers : list FJsonValue :=
  flat_map
    (fun Handler =>
       match Handler with
       | None => []
       | Some H =>
           flat_map
             (fun Endpoint =>
                match TryGetStringField Endpoint "path" with
                | Some SchemaPath => [JString SchemaPath]
                | None => []
                end)
             (GetEndpointSchemas H)
       end)
    Handlers.

Definition BuildEndpointSchema Handlers (EndpointPath : string)
  : FJsonObject :=
  match SearchHandlers Handlers EndpointPath with
  | Some Response => Response
  | None =>
      SetArrayField
        (SetStringField
           (SetBoolField MakeSharedObject "success" false)
           "error" ("Endpoint '" ++ EndpointPath ++ "' not found"))
        "available_endpoints" (AvailableEndpoints Handlers)
  end.

(** [HandleSchema]; [RouterRef] is the router the handler points to. *)
Definition HandleSchema (RouterRef : TSharedPtr (@FRouterState E World))
  (Request : @FRESTRequest E) : @FRESTResponse E :=
  match RouterRef with
  | None => ServerError "Router not available"
  | Some This =>
      let Handlers := RegisteredHandlers This in
      let NonEmpty (Param : option string) :=
        match Param with
        | Some Value => negb (FString.IsEmpty Value)
        | None => false
        end in
      let HandlerParam := Map.Find (QueryParams Request) "handler" in
      let EndpointParam := Map.Find (QueryParams Request) "endpoint" in
      if NonEmpty HandlerParam
      then Ok (Some (BuildHandlerSchema Handlers
                       (match HandlerParam with
                        | Some Value => Value
                        | None => EmptyString
                        end)))
      else if NonEmpty EndpointParam
           then Ok (Some (BuildEndpointSchema Handlers
                            (match EndpointParam with
                             | Some Value => Value
                             | None => EmptyString
                             end)))
           else Ok (Some (BuildFullSchema Handlers))
  end.

End Schema.

(** ** A concrete engine and a small router, for the examples *)

Module Sample.

Definition Decimal (z : Z) : string :=
  DecimalString.NilZero.string_of_int (Z.to_int z).

(** Numbers are integers; [PrintfG] and [SanitizeFloat] are the digits
    [%g] and [SanitizeFloat(x, 0)] print for an integral value of
    magnitude below [10^6], all the examples use. *)
Definition Integers (bEmpty : bool) : Engine :=
  {| Number := Z;
     NumberOfInt32 := fun z => z;
     PrintfG := Decimal;
     SanitizeFloat := Decimal;
     NumberIsZero := Z.eqb 0;
     bAsObjectYieldsEmpty := bEmpty |}.

(** The editor's state in the examples: the route keys served so far. *)
Definition Log : Type := list string.

Section WithEngine.

Context {E : Engine}.

Definition Str (s : string) : @FJsonValue E := JString s.

(** [GET /first] answers [{"id":"abc"}]. *)
Definition HandleFirst (Request : @FRESTRequest E) (w : Log)
  : @FRESTResponse E * Log :=
  (Ok (Some [("id", Str "abc")]), (w ++ ["GET:/first"])%list).

(** [POST /echo] answers the body it was sent. *)
Definition HandleEcho (Request : @FRESTRequest E) (w : Log)
  : @FRESTResponse E * Log :=
  (Ok (JsonBody Request), (w ++ ["POST:/echo"])%list).

(** [GET /ping] answers [{"pong":true}]. *)
Definition HandlePing (Request : @FRESTRequest E) (w : Log)
  : @FRESTResponse E * Log :=
  (Ok (Some [("pong", JBool true)]), (w ++ ["GET:/ping"])%list).

Definition EmptyRouter : @FRESTRouter E Log := {| Routes := [] |}.

Definition Router : @FRESTRouter E Log :=
  RegisterRoute
    (RegisterRoute
       (RegisterRoute
          (RegisterRoute EmptyRouter GET "/first" (Some HandleFirst))
          POST "/echo" (Some HandleEcho))
       GET "/ping" (Some HandlePing))
    PUT "/unbound" None.

(** A batch step [{"method": m, "path": p}], with a body when given. *)
Definition Step (m p : string) (StepBody : option (@FJsonObject E))
  : @FJsonValue E :=
  JObject
    (match StepBody with
     | Some b => [("method", Str m); ("path", Str p); ("body", JObject b)]
     | None => [("method", Str m); ("path", Str p)]
     end).

Definition BatchRequest (Steps : list (@FJsonValue E))
  (Options : option bool) : @FRESTRequest E :=
  {| Path := "/batch";
     Method := POST;
     QueryParams := [];
     PathParams := [];
     Body := EmptyString;
     JsonBody :=
       Some (match Options with
             | Some b =>
                 [("requests", JArray Steps);
                  ("options", JObject [("stop_on_error", JBool b)])]
             | None => [("requests", JArray Steps)]
             end) |}.

(** A request for [GET p], as the batch loop builds it. *)
Definition Get (p : string) : @FRESTRequest E :=
  {| Path := p;
     Method := GET;
     QueryParams := [];
     PathParams := [];
     Body := EmptyString;
     JsonBody := None |}.

(** The two steps of the specification's scenario B, and the second
    one again with the reference spelled through [data]. *)
Definition FirstStep : @FJsonObject E :=
  [("method", Str "GET"); ("path", Str "/first")].

Definition RefStep : @FJsonObject E :=
  [("method", Str "POST"); ("path", Str "/echo");
   ("body", JObject [("ref", Str "$0.id")])].

Definition DataRefStep : @FJsonObject E :=
  [("method", Str "POST"); ("path", Str "/echo");
   ("body", JObject [("ref", Str "$0.data.id")])].

(** What the batch loop has recorded once [FirstStep] has run. *)
Definition FirstRun : @FBatchRun E Log :=
  BatchLoop Router true [JObject FirstStep] 0 [] 0 0 [].

(** Two references in one string, the second a prefix of the first:
    the response of [FirstStep] has the field [id] and no field [idx]. *)
Definition PrefixTokens : string := "$0.data.idx $0.data.id".

Definition PrefixStep : @FJsonObject E :=
  [("method", Str "POST"); ("path", Str "/echo");
   ("body", JObject [("ref", Str PrefixTokens)])].

End WithEngine.

(** An engine that yields a router and a route handle for every port. *)
Definition HttpOk : FHttpServerModule :=
  {| GetHttpRouter := fun _ => true; BindRoute := true |}.

(** The engine of the closed examples: [AsObject] hands back an empty
    object for a value that is not one. *)
Definition Plain : Engine := Integers true.

(** A transport request for [GET /api/v1/nowhere], without a body. *)
Definition HttpNowhere : FHttpServerRequest :=
  {| RelativePath := "/api/v1/nowhere";
     Verb := VERB_GET;
     HttpQueryParams := [];
     HttpBody := EmptyString |}.

(** A deserializer that accepts no text. *)
Definition NoJson : string -> TSharedPtr (@FJsonObject Plain) :=
  fun _ => None.

(** What the lambdas of [Start] read of a router that runs on port
    8080 and has no handler registered yet: the port and the
    handlers. *)
Definition Live : @FRouterState Plain Log :=
  {| Table := {| Routes := [] |};
     RegisteredHandlers := [];
     HttpRouterValid := true;
     RouteHandleValid := true;
     bIsRunning := true;
     CurrentPort := 8080 |}.

(** The delegate of a lambda on that router. *)
Definition CaptureLive
  (Lambda : @FRouterState Plain Log -> @FRESTRequest Plain
            -> @FRESTResponse Plain)
  (Request : @FRESTRequest Plain) (w : Log) : @FRESTResponse Plain * Log :=
  (Lambda Live Request, w).

(** A new router, started on port 8080. *)
Definition Running : @FRouterState Plain Log :=
  snd (Start CaptureLive HttpOk NewRouter 8080).

End Sample.

(** ** The specification's readings, to compare the code with *)

Section Readings.

Context {E : Engine}.
Context {World : Type}.

(** The path resolver in the words of the specification: every segment
    but the last must name an object held by the current object; the
    last segment is looked up and returned as it is. *)
Fixpoint Resolve (Current : FJsonObject) (Segments : list string)
  : option FJsonValue :=
  match Segments with
  | [] => None
  | [Last] => Map.Find Current Last
  | Key :: Rest =>
      match Map.Find Current Key with
      | Some (JObject Child) => Resolve Child Rest
      | _ => None
      end
  end.

(** The path split on every dot, empty pieces kept: [a..b] has the
    three segments [a], the empty one and [b]. *)
Fixpoint SplitScan (Cur : list ascii) (s : string) : list string :=
  match s with
  | EmptyString => [string_of_list_ascii (rev Cur)]
  | String c s' =>
      if Ascii.eqb c "."
      then string_of_list_ascii (rev Cur) :: SplitScan [] s'
      else SplitScan (c :: Cur) s'
  end.

Definition SplitOnDot (s : string) : list string := SplitScan [] s.

(** The resolver of the specification on a path: the path split on
    every dot, then walked. *)
Definition SpecResolve (Root : FJsonObject) (JsonPath : string)
  : option FJsonValue :=
  Resolve Root (SplitOnDot JsonPath).

(** A piece of a path that is not empty. *)
Definition NonEmpty (Part : string) : bool := negb (FString.IsEmpty Part).

(** What [ExtractJsonPath] returns once the parents are walked. *)
Definition Finish (Walked : option (TSharedPtr FJsonObject))
  (Last : string) : TSharedPtr FJsonValue :=
  match Walked with
  | Some (Some o) => Map.Find o Last
  | _ => None
  end.

(** The text a token stands for once resolved: the raw string, the
    printed number, or the token itself when nothing is substituted. *)
Definition TokenText (PreviousResults : list (TSharedPtr FJsonObject))
  (m : Regex.FRegexMatch) : string :=
  let Index := FString.Atoi (Regex.CaptureGroup1 m) in
  if FString.IsEmpty (Regex.CaptureGroup3 m) then Regex.CaptureGroup0 m
  else
    match nth_error PreviousResults (Z.to_nat Index) with
    | Some ResultData =>
        match ExtractJsonPath ResultData (Regex.CaptureGroup3 m) with
        | Some (JString s) => s
        | Some (JNumber n) => PrintfG n
        | _ => Regex.CaptureGroup0 m
        end
    | None => Regex.CaptureGroup0 m
    end.

(** Substitution read token by token on the text: each match is
    rewritten where it stands, and a match that resolves to nothing
    keeps its text. *)
Fixpoint SubstituteInPlace (PreviousResults : list (TSharedPtr FJsonObject))
  (Skip : nat) (s : string) : string :=
  match s with
  | EmptyString => EmptyString
  | String c s' =>
      match Skip with
      | S k => SubstituteInPlace PreviousResults k s'
      | O =>
          match Regex.MatchHere s with
          | Some m =>
              TokenText PreviousResults m ++
              SubstituteInPlace PreviousResults
                (String.length (Regex.CaptureGroup0 m) - 1) s'
          | None => String c (SubstituteInPlace PreviousResults O s')
          end
      end
  end.

(** One turn of the loop of [HandleBatch], read as a whole: the result
    it records, whether the step counts as completed, and the state
    it leaves. *)
Definition StepOutcome (Router : @FRESTRouter E World) (Index : Z)
  (Acc : list (TSharedPtr FJsonObject)) (Step : FJsonValue) (w : World)
  : TSharedPtr FJsonObject * bool * World :=
  match AsObject Step with
  | None => (Some (ErrorResult Index), false, w)
  | Some ReqObj =>
      let (InternalResponse, w') :=
        DispatchInternal Router (BuildInternalRequest ReqObj Acc) w in
      (Some (BuildResult Index ReqObj InternalResponse),
       Is2xx (StatusCode InternalResponse), w')
  end.

(** Whether a recorded result carries [success: true]. *)
Definition ResultSucceeded (Result : TSharedPtr FJsonObject) : bool :=
  match Result with
  | Some o =>
      match Map.Find o "success" with
      | Some (JBool true) => true
      | _ => false
      end
  | None => false
  end.

(** How many entries of a list pass a test. *)
Definition CountIf {A : Type} (p : A -> bool) (l : list A) : Z :=
  Z.of_nat (List.length (filter p l)).

(** The body the specification gives the 404 of an unknown route. *)
Definition SpecNotFoundBody (m : ERESTMethod) (p : string) : FJsonObject :=
  [("success", JBool false);
   ("error", JString "NOT_FOUND");
   ("message", JString ("Route not found: " ++ MethodString m ++ " " ++ p))].

End Readings.

(** ** Well-formed values *)

(** A table as [TMap] keeps it: no key twice. *)
Fixpoint KeysUnique {V : Type} (m : TMap V) : bool :=
  match m with
  | [] => true
  | (k, _) :: Rest => negb (Map.Contains Rest k) && KeysUnique Rest
  end.

Section WellFormed.

Context {E : Engine}.

(** A value whose objects, as far as substitution visits them (not
    inside arrays), hold no key twice, as the objects of the
    engine do. *)
Fixpoint ObjectsUnique (v : FJsonValue) : bool :=
  match v with
  | JObject Values =>
      KeysUnique Values && forallb (fun Field => ObjectsUnique (snd Field)) Values
  | _ => true
  end.

(** The [index] field of a recorded result. *)
Definition ResultIndex (Result : TSharedPtr FJsonObject)
  : option FJsonValue :=
  match Result with
  | Some o => Map.Find o "index"
  | None => None
  end.

End WellFormed.

(** * Properties *)

Section PathResolver.

Context {E : Engine}.

Lemma HasField_TryGetField (o : FJsonObject) (k : string) :
  (if HasField o k then TryGetField o k else None) = Map.Find o k.
Proof.
  unfold HasField, TryGetField, Map.Contains.
  destruct (Map.Find o k); reflexivity.
Qed.

Lemma Finish_null (Parts : list string) (Last : string) :
  Finish (WalkParents None Parts) Last = None.
Proof.
  destruct Parts as [|p [|q Rest]]; reflexivity.
Qed.

Lemma Finish_empty (Parts : list string) :
  Parts <> [] ->
  Finish (WalkParents (Some MakeSharedObject) Parts)
    (List.last Parts EmptyString) = None.
Proof.
  destruct Parts as [|p [|q Rest]]; intros H; reflexivity.
Qed.

Lemma Finish_non_object (v : FJsonValue) (Parts : list string) :
  (forall Child, v <> JObject Child) ->
  Parts <> [] ->
  Finish (WalkParents (AsObject v) Parts) (List.last Parts EmptyString)
  = None.
Proof.
  intros Hv HP.
  assert (Hf : AsObject v
               = if bAsObjectYieldsEmpty then Some MakeSharedObject else None).
  { destruct v; try reflexivity. now elim (Hv Values). }
  rewrite Hf. destruct bAsObjectYieldsEmpty.
  - now apply Finish_empty.
  - apply Finish_null.
Qed.

Lemma WalkParents_step (o : FJsonObject) (p q : string)
  (Rest : list string) :
  WalkParents (Some o) (p :: q :: Rest)
  = if negb (HasField o p) then None
    else WalkParents (GetObjectField o p) (q :: Rest).
Proof. reflexivity. Qed.

Lemma Resolve_step (o : FJsonObject) (p q : string) (Rest : list string) :
  Resolve o (p :: q :: Rest)
  = match Map.Find o p with
    | Some (JObject Child) => Resolve Child (q :: Rest)
    | _ => None
    end.
Proof. reflexivity. Qed.

Lemma WalkParents_Resolve (Parts : list string) :
  forall Root : FJsonObject,
    Parts <> [] ->
    Finish (WalkParents (Some Root) Parts) (List.last Parts EmptyString)
    = Resolve Root Parts.
Proof.
  induction Parts as [|p Rest IH]; intros Root HP; [now elim HP|].
  destruct Rest as [|q Rest]; [reflexivity|].
  change (List.last (p :: q :: Rest) EmptyString)
    with (List.last (q :: Rest) EmptyString).
  rewrite WalkParents_step, Resolve_step.
  unfold HasField, Map.Contains, GetObjectField, GetField.
  destruct (Map.Find Root p) as [v|] eqn:Hp; cbn [negb]; [|reflexivity].
  destruct v as [| b | n | s | a | Child];
    try (apply Finish_non_object; [intros c; discriminate | discriminate]).
  apply IH. discriminate.
Qed.

Lemma ExtractJsonPath_Finish (Root : TSharedPtr FJsonObject)
  (JsonPath : string) :
  let Parts := FString.ParseIntoArray JsonPath "." in
  ExtractJsonPath Root JsonPath
  = match Parts with
    | [] => None
    | _ => Finish (WalkParents Root Parts) (List.last Parts EmptyString)
    end.
Proof.
  unfold ExtractJsonPath.
  destruct (FString.ParseIntoArray JsonPath ".") as [|p Rest] eqn:HP.
  - cbn. destruct Root; reflexivity.
  - cbv zeta.
    destruct (WalkParents Root (p :: Rest)) as [[o|]|]; try reflexivity.
    unfold Finish.
    replace (0 <? Z.of_nat (List.length (p :: Rest))) with true
      by (symmetry; apply Z.ltb_lt; cbn [List.length]; lia).
    cbn [andb]. apply HasField_TryGetField.
Qed.

Lemma IsEmpty_piece (Cur : list ascii) :
  FString.IsEmpty (string_of_list_ascii (rev Cur))
  = match Cur with [] => true | _ => false end.
Proof.
  destruct Cur as [|c Cur]; [reflexivity|].
  cbn [rev]. now destruct (rev Cur).
Qed.

(** The pieces [ParseIntoArray] yields are the non-empty ones of the
    path split on every dot. *)
Lemma ParseScan_SplitScan (s : string) :
  forall Cur : list ascii,
    FString.ParseScan "." Cur s = filter NonEmpty (SplitScan Cur s).
Proof.
  induction s as [|c s IH]; intros Cur; cbn [FString.ParseScan SplitScan].
  - cbn [filter]. unfold NonEmpty. rewrite IsEmpty_piece. now destruct Cur.
  - destruct (Ascii.eqb c "."); [|apply IH].
    cbn [filter].
    change (NonEmpty (string_of_list_ascii (rev Cur)))
      with (negb (FString.IsEmpty (string_of_list_ascii (rev Cur)))).
    rewrite IsEmpty_piece, IH. now destruct Cur.
Qed.

Lemma ParseIntoArray_SplitOnDot (JsonPath : string) :
  FString.ParseIntoArray JsonPath "." = filter NonEmpty (SplitOnDot JsonPath).
Proof. apply ParseScan_SplitScan. Qed.

(** C7, as the code has it. For every object root and every path,
    [ExtractJsonPath] returns what the specification's resolver returns
    on the non-empty pieces of the path split on every dot: each
    segment but the last must name an object held by the current object
    (a missing key or a value that is not an object gives not-found),
    and the value under the last segment is returned as it is. Empty
    pieces are passed over, and a key is found as the engine's map finds
    it, letter case apart. A null root gives not-found. The two examples
    of the specification hold: [a.b.c] in [{a:{b:{c:5}}}] is [5], and
    [a.x] in [{a:{b:1}}] is not-found; and [data.id] in
    [{Data:{Id:abc}}] is [abc]. *)
Theorem ExtractJsonPath_is_Resolve :
  (forall (Root : FJsonObject) (JsonPath : string),
      ExtractJsonPath (Some Root) JsonPath
      = Resolve Root (filter NonEmpty (SplitOnDot JsonPath)))
  /\ (forall JsonPath : string, ExtractJsonPath None JsonPath = None)
  /\ ExtractJsonPath
       (Some [("a", JObject [("b", JObject [("c", JNumber (NumberOfInt32 5))])])])
       "a.b.c"
     = Some (JNumber (NumberOfInt32 5))
  /\ ExtractJsonPath
       (Some [("a", JObject [("b", JNumber (NumberOfInt32 1))])]) "a.x"
     = None
  /\ ExtractJsonPath
       (Some [("Data", JObject [("Id", JString "abc")])]) "data.id"
     = Some (JString "abc").
Proof.
  split; [|split; [|split; [|split]]].
  - intros Root JsonPath.
    rewrite ExtractJsonPath_Finish, <- ParseIntoArray_SplitOnDot. cbv zeta.
    destruct (FString.ParseIntoArray JsonPath ".") as [|p Rest] eqn:HP;
      [reflexivity|].
    apply WalkParents_Resolve. discriminate.
  - intros JsonPath. rewrite ExtractJsonPath_Finish. cbv zeta.
    destruct (FString.ParseIntoArray JsonPath "."); [reflexivity|].
    apply Finish_null.
  - reflexivity.
  - reflexivity.
  - reflexivity.
Qed.

End PathResolver.

Section Substitution.

Context {E : Engine}.

Lemma ExtractJsonPath_null (JsonPath : string) :
  ExtractJsonPath None JsonPath = None.
Proof.
  rewrite ExtractJsonPath_Finish. cbv zeta.
  destruct (FString.ParseIntoArray JsonPath "."); [reflexivity|].
  apply Finish_null.
Qed.

Lemma nth_of_nth_error {A : Type} (l : list A) (i : nat) (x d : A) :
  nth_error l i = Some x -> nth i l d = x.
Proof.
  revert i. induction l as [|a l IH]; intros [|i] H; cbn in *;
    try discriminate.
  - now injection H.
  - now apply IH.
Qed.

Lemma nth_error_in_range {A : Type} (l : list A) (i : nat) (x : A) :
  nth_error l i = Some x -> (i < List.length l)%nat.
Proof.
  intros H. apply nth_error_Some. rewrite H. discriminate.
Qed.

Ltac read_entry H :=
  match goal with
  | |- context [nth ?i ?l ?d] => rewrite (nth_of_nth_error l i _ d H)
  | G : context [nth ?i ?l ?d] |- _ =>
      rewrite (nth_of_nth_error l i _ d H) in G
  end.

Lemma IsEmpty_true (s : string) : FString.IsEmpty s = true <-> s = EmptyString.
Proof.
  destruct s; cbn; split; intros H; try reflexivity; discriminate.
Qed.

Lemma fold_left_fixed {A B : Type} (f : A -> B -> A) (l : list B) (a : A) :
  (forall b, In b l -> forall x, f x b = x) -> fold_left f l a = a.
Proof.
  induction l as [|b l IH]; intros H; cbn; [reflexivity|].
  rewrite (H b (or_introl eq_refl)). apply IH.
  intros b' Hb'. apply H. now right.
Qed.

(** X19. What one match does, case by case. With [Index] the number the
    code reads after the dollar sign: the match leaves [Result] as it is
    when [Index] is at or beyond the end of the list, when the match has
    no dotted path, and when the path resolves in [PreviousResults[Index]]
    to an object, an array, a boolean, null or nothing; when it resolves
    to a string or to a number, [Result] becomes [Result] with the text
    of the match replaced, wherever it occurs, by the raw string or by
    the number as [%g] prints it. So a match changes [Result] only if it
    resolves to a string or a number, and a string all of whose matches
    are of the first kind comes back unchanged. *)
Theorem ResolveMatch_by_cases
  (PreviousResults : list (TSharedPtr FJsonObject)) (Result : string)
  (m : Regex.FRegexMatch) :
  let FullMatch := Regex.CaptureGroup0 m in
  let Index := FString.Atoi (Regex.CaptureGroup1 m) in
  let JsonPath := Regex.CaptureGroup3 m in
  (Z.of_nat (List.length PreviousResults) <= Index ->
   ResolveMatch PreviousResults Result m = Result)
  /\ (JsonPath = EmptyString ->
      ResolveMatch PreviousResults Result m = Result)
  /\ (forall ResultData,
         0 <= Index ->
         nth_error PreviousResults (Z.to_nat Index) = Some ResultData ->
         JsonPath <> EmptyString ->
         ResolveMatch PreviousResults Result m
         = match ExtractJsonPath ResultData JsonPath with
           | Some (JString s) => FString.Replace Result FullMatch s
           | Some (JNumber n) => FString.Replace Result FullMatch (PrintfG n)
           | Some (JObject _) | Some (JArray _) | Some (JBool _)
           | Some JNull | None => Result
           end)
  /\ (ResolveMatch PreviousResults Result m <> Result ->
      exists ResultData,
        0 <= Index < Z.of_nat (List.length PreviousResults)
        /\ nth_error PreviousResults (Z.to_nat Index) = Some ResultData
        /\ JsonPath <> EmptyString
        /\ ((exists s, ExtractJsonPath ResultData JsonPath = Some (JString s))
            \/ (exists n,
                   ExtractJsonPath ResultData JsonPath = Some (JNumber n))))
  /\ (forall Value : string,
         (forall t, In t (Regex.FindAll Value) ->
                    forall R, ResolveMatch PreviousResults R t = R) ->
         ResolveStringVariables Value PreviousResults = Value).
Proof.
  cbv zeta. repeat split.
  - intros Hout. unfold ResolveMatch.
    replace (FString.Atoi (Regex.CaptureGroup1 m)
             <? Z.of_nat (List.length PreviousResults)) with false
      by (symmetry; apply Z.ltb_ge; exact Hout).
    now rewrite andb_false_r.
  - intros Hbare. unfold ResolveMatch. rewrite Hbare. cbn [FString.IsEmpty].
    destruct (_ && _); [|reflexivity].
    destruct (IsValid _); reflexivity.
  - intros ResultData Hpos Hnth Hpath. unfold ResolveMatch.
    pose proof (nth_error_in_range _ _ _ Hnth) as Hlt.
    replace (0 <=? FString.Atoi (Regex.CaptureGroup1 m)) with true
      by (symmetry; apply Z.leb_le; exact Hpos).
    replace (FString.Atoi (Regex.CaptureGroup1 m)
             <? Z.of_nat (List.length PreviousResults)) with true
      by (symmetry; apply Z.ltb_lt; lia).
    cbn [andb]. read_entry Hnth.
    destruct ResultData as [o|]; cbn [IsValid].
    + destruct (FString.IsEmpty (Regex.CaptureGroup3 m)) eqn:He.
      * apply IsEmpty_true in He. contradiction.
      * destruct (ExtractJsonPath (Some o) (Regex.CaptureGroup3 m))
          as [[| | | | |]|]; reflexivity.
    + now rewrite ExtractJsonPath_null.
  - intros Hchg. unfold ResolveMatch in Hchg.
    destruct (0 <=? FString.Atoi (Regex.CaptureGroup1 m)) eqn:H0;
      [|now elim Hchg].
    destruct (FString.Atoi (Regex.CaptureGroup1 m)
              <? Z.of_nat (List.length PreviousResults)) eqn:H1;
      [|now elim Hchg].
    cbn [andb] in Hchg.
    apply Z.leb_le in H0. apply Z.ltb_lt in H1.
    destruct (nth_error PreviousResults
                (Z.to_nat (FString.Atoi (Regex.CaptureGroup1 m))))
      as [ResultData|] eqn:Hnth.
    2:{ apply nth_error_None in Hnth. lia. }
    read_entry Hnth.
    exists ResultData.
    destruct ResultData as [o|]; cbn [IsValid] in Hchg; [|now elim Hchg].
    destruct (FString.IsEmpty (Regex.CaptureGroup3 m)) eqn:He;
      [now elim Hchg|].
    split; [lia|]. split; [reflexivity|]. split.
    + intros Hp. rewrite Hp in He. discriminate.
    + destruct (ExtractJsonPath (Some o) (Regex.CaptureGroup3 m))
        as [[| b | n | s | a | c]|]; try (now elim Hchg).
      * right. now exists n.
      * left. now exists s.
  - intros Value Hall. unfold ResolveStringVariables.
    now apply fold_left_fixed.
Qed.

(** C4, on the code. Step 0 has answered [{"id":"abc"}], and the body
    of the next step holds the string [$0.data.idx $0.data.id]. The
    first reference names a field the response does not have: it
    resolves to not-found, and its text is to stay. The second one
    resolves to the string [abc], and the code substitutes it with
    [FString::Replace], which rewrites every occurrence of [$0.data.id]
    in the working text, the one at the head of [$0.data.idx] included.
    The step is dispatched with [abcx abc]; with each reference
    rewritten where it stands the text would be [$0.data.idx abc]. *)
Theorem ResolveStringVariables_rewrites_unresolved_token :
  let Recorded := Results Sample.FirstRun in
  Regex.FindAll Sample.PrefixTokens
  = [ {| Regex.CaptureGroup0 := "$0.data.idx"; Regex.CaptureGroup1 := "0";
         Regex.CaptureGroup3 := "data.idx" |};
      {| Regex.CaptureGroup0 := "$0.data.id"; Regex.CaptureGroup1 := "0";
         Regex.CaptureGroup3 := "data.id" |} ]
  /\ ExtractJsonPath (nth 0 Recorded None) "data.idx" = None
  /\ ExtractJsonPath (nth 0 Recorded None) "data.id" = Some (JString "abc")
  /\ SubstituteInPlace Recorded O Sample.PrefixTokens = "$0.data.idx abc"
  /\ ResolveStringVariables Sample.PrefixTokens Recorded = "abcx abc"
  /\ JsonBody (BuildInternalRequest Sample.PrefixStep Recorded)
     = Some [("ref", JString "abcx abc")]
  /\ ResolveStringVariables Sample.PrefixTokens Recorded
     <> SubstituteInPlace Recorded O Sample.PrefixTokens.
Proof.
  cbv zeta. repeat split; try reflexivity.
  intros H. vm_compute in H. discriminate H.
Qed.

End Substitution.

Section Dispatch.

Context {E : Engine}.
Context {World : Type}.

(** C2, as the code has it. For every transport request, the response
    [HandleRequest] computes from the parsed request and the one
    [DispatchInternal] returns for the same parsed request come from the
    same route lookup. With a route registered they are equal, state
    left behind included: the handler's own response, or the 500
    [Route handler not bound] for an unbound delegate. With no route
    both are a 404 [NOT_FOUND] that leaves the state alone, and their
    messages differ: [No handler for KEY] on the public path,
    [Route not found: KEY] on the internal one. *)
Theorem HandleRequest_vs_DispatchInternal
  (Deserialize : string -> TSharedPtr FJsonObject)
  (Router : @FRESTRouter E World) (Request : FHttpServerRequest)
  (w : World) :
  let ParsedRequest := ParseRequest Deserialize Request in
  let Key := RouteKey (Method ParsedRequest) (Path ParsedRequest) in
  match Map.Find (Routes Router) Key with
  | Some Handler =>
      HandleRequest Deserialize Router Request w
      = DispatchInternal Router ParsedRequest w
      /\ (Handler = None ->
          DispatchInternal Router ParsedRequest w
          = (ServerError "Route handler not bound", w))
      /\ (forall Execute, Handler = Some Execute ->
          DispatchInternal Router ParsedRequest w = Execute ParsedRequest w)
  | None =>
      HandleRequest Deserialize Router Request w
      = (Error 404 "NOT_FOUND" ("No handler for " ++ Key), w)
      /\ DispatchInternal Router ParsedRequest w
         = (Error 404 "NOT_FOUND" ("Route not found: " ++ Key), w)
  end.
Proof.
  cbv zeta. unfold HandleRequest, DispatchInternal.
  destruct (Map.Find (Routes Router) _) as [[Execute|]|].
  - repeat split; [discriminate|].
    intros Execute' H. now injection H as <-.
  - repeat split. discriminate.
  - split; reflexivity.
Qed.

(** C3, as the code has it. For every router and request whose route
    key [METHOD:path] is not in the table, [DispatchInternal] leaves the
    state alone and returns status 404 with the body [success: false],
    [error: NOT_FOUND], [message: Route not found: METHOD:path], the
    method and the path joined by a colon as in the route key. The
    table finds a key as the engine's map does, letter case apart. *)
Theorem DispatchInternal_unregistered
  (Router : @FRESTRouter E World) (Request : @FRESTRequest E) (w : World) :
  Map.Find (Routes Router) (RouteKey (Method Request) (Path Request)) = None ->
  DispatchInternal Router Request w
  = ({| StatusCode := 404;
        ResponseJson :=
          Some [("success", JBool false);
                ("error", JString "NOT_FOUND");
                ("message",
                 JString ("Route not found: "
                          ++ MethodString (Method Request) ++ ":"
                          ++ Path Request))];
        RawBody := EmptyString |}, w).
Proof.
  intros Hfind. unfold DispatchInternal. now rewrite Hfind.
Qed.

End Dispatch.

Section Batch.

Context {E : Engine}.
Context {World : Type}.

Implicit Types (Router : @FRESTRouter E World) (w : World).
Implicit Types (Acc : list (TSharedPtr (@FJsonObject E))).

Lemma BatchLoop_cons Router (bStopOnError : bool) (Step : FJsonValue)
  (Rest : list FJsonValue) (Index : Z) Acc (nCompleted nFailed : Z) w :
  BatchLoop Router bStopOnError (Step :: Rest) Index Acc nCompleted nFailed w
  = let '(Result, bOk, w') := StepOutcome Router Index Acc Step w in
    let Acc' := (Acc ++ [Result])%list in
    if bOk
    then BatchLoop Router bStopOnError Rest (Index + 1) Acc'
           (nCompleted + 1) nFailed w'
    else if bStopOnError
         then {| Results := Acc'; Completed := nCompleted;
                 Failed := nFailed + 1; After := w' |}
         else BatchLoop Router bStopOnError Rest (Index + 1) Acc'
                nCompleted (nFailed + 1) w'.
Proof.
  cbn [BatchLoop]. unfold StepOutcome.
  destruct (AsObject Step) as [ReqObj|]; [|reflexivity].
  destruct (DispatchInternal Router _ w) as [Response w'].
  reflexivity.
Qed.

Lemma StepOutcome_success Router (Index : Z) Acc (Step : FJsonValue) w
  (Result : TSharedPtr FJsonObject) (bOk : bool) (w' : World) :
  StepOutcome Router Index Acc Step w = (Result, bOk, w') ->
  ResultSucceeded Result = bOk.
Proof.
  unfold StepOutcome.
  destruct (AsObject Step) as [ReqObj|].
  - destruct (DispatchInternal Router _ w) as [Response w''].
    intros H. injection H as <- <- _.
    unfold BuildResult.
    destruct (IsValid (ResponseJson Response));
      destruct (Is2xx (StatusCode Response)); reflexivity.
  - intros H. now injection H as <- <- _.
Qed.

Lemma CountIf_cons {A : Type} (p : A -> bool) (a : A) (l : list A) :
  CountIf p (a :: l) = (if p a then 1 else 0) + CountIf p l.
Proof.
  unfold CountIf. cbn [filter]. destruct (p a); cbn [List.length]; lia.
Qed.

Lemma CountIf_split {A : Type} (p : A -> bool) (l : list A) :
  CountIf p l + CountIf (fun a => negb (p a)) l = Z.of_nat (List.length l).
Proof.
  induction l as [|a l IH]; [reflexivity|].
  rewrite !CountIf_cons. cbn [List.length]. destruct (p a); cbn [negb]; lia.
Qed.

(** What the loop adds to its accumulators: results are appended after
    those already recorded, and each appended result is counted once,
    under [Completed] when it succeeded and under [Failed] otherwise. *)
Lemma BatchLoop_appends Router (bStopOnError : bool)
  (Pending : list FJsonValue) :
  forall (Index : Z) Acc (nCompleted nFailed : Z) w,
  exists Added : list (TSharedPtr FJsonObject),
    let Run :=
      BatchLoop Router bStopOnError Pending Index Acc nCompleted nFailed w in
    Results Run = (Acc ++ Added)%list
    /\ Completed Run = nCompleted + CountIf ResultSucceeded Added
    /\ Failed Run
       = nFailed + CountIf (fun r => negb (ResultSucceeded r)) Added
    /\ (List.length Added <= List.length Pending)%nat
    /\ (bStopOnError = false -> List.length Added = List.length Pending).
Proof.
  induction Pending as [|Step Rest IH]; intros Index Acc nCompleted nFailed w.
  - exists []. cbn. rewrite app_nil_r.
    repeat split; unfold CountIf; cbn; lia.
  - cbv zeta. rewrite BatchLoop_cons.
    destruct (StepOutcome Router Index Acc Step w) as [[Result bOk] w'] eqn:Hs.
    apply StepOutcome_success in Hs.
    destruct bOk; [|destruct bStopOnError].
    + destruct (IH (Index + 1) (Acc ++ [Result])%list (nCompleted + 1)
                  nFailed w') as (Added & HR & HC & HF & HL & HA).
      exists (Result :: Added). cbv zeta in *.
      rewrite HR, HC, HF, !CountIf_cons, Hs, <- app_assoc.
      cbn [negb List.length app]. repeat split; try lia.
      intros Hb. now rewrite (HA Hb).
    + exists [Result]. cbn [Results Completed Failed].
      rewrite !CountIf_cons, Hs. cbn [negb List.length].
      repeat split; unfold CountIf; cbn; lia.
    + destruct (IH (Index + 1) (Acc ++ [Result])%list nCompleted
                  (nFailed + 1) w') as (Added & HR & HC & HF & HL & HA).
      exists (Result :: Added). cbv zeta in *.
      rewrite HR, HC, HF, !CountIf_cons, Hs, <- app_assoc.
      cbn [negb List.length app]. specialize (HA eq_refl).
      repeat split; lia.
Qed.

Lemma BatchResponse_fields (Run : @FBatchRun E World) :
  BatchResponse Run
  = [("success", JBool (Failed Run =? 0));
     ("results", JArray (map FJsonValueObject (Results Run)));
     ("completed", JNumber (NumberOfInt32 (Completed Run)));
     ("failed", JNumber (NumberOfInt32 (Failed Run)))].
Proof. reflexivity. Qed.

Lemma HandleBatch_runs Router (Request : @FRESTRequest E) w
  (Body : FJsonObject) (RequestsArray : list FJsonValue) :
  JsonBody Request = Some Body ->
  TryGetArrayField Body "requests" = Some RequestsArray ->
  HandleBatch (Some Router) Request w
  = (let Run :=
       BatchLoop Router (StopOnError Body) RequestsArray 0 [] 0 0 w in
     (Ok (Some (BatchResponse Run)), After Run)).
Proof.
  intros HB HR. unfold HandleBatch. now rewrite HB, HR.
Qed.

(** C5. A batch of three steps under [stop_on_error], in which the
    step at index 0 is counted as completed and the step at index 1 is
    not (its dispatch gave a status outside 200..299, or it was not a
    step object): the batch answers with exactly the two results of
    indices 0 and 1, in that order, [completed = 1], [failed = 1] and
    [success = false]; the third step is not run. *)
Theorem HandleBatch_halts_at_failure Router (Request : @FRESTRequest E) w
  (Body : FJsonObject) (Step0 Step1 Step2 : FJsonValue)
  (Result0 Result1 : TSharedPtr FJsonObject) (w1 w2 : World) :
  JsonBody Request = Some Body ->
  TryGetArrayField Body "requests" = Some [Step0; Step1; Step2] ->
  StopOnError Body = true ->
  StepOutcome Router 0 [] Step0 w = (Result0, true, w1) ->
  StepOutcome Router 1 [Result0] Step1 w1 = (Result1, false, w2) ->
  HandleBatch (Some Router) Request w
  = ({| StatusCode := 200;
        ResponseJson :=
          Some [("success", JBool false);
                ("results",
                 JArray [FJsonValueObject Result0; FJsonValueObject Result1]);
                ("completed", JNumber (NumberOfInt32 1));
                ("failed", JNumber (NumberOfInt32 1))];
        RawBody := EmptyString |}, w2).
Proof.
  intros HB HR Hstop H0 H1.
  rewrite (HandleBatch_runs Router Request w _ _ HB HR). cbv zeta.
  rewrite Hstop, BatchLoop_cons, H0.
  change (0 + 1) with 1. cbn [app].
  rewrite BatchLoop_cons, H1. reflexivity.
Qed.

(** C6. For every batch run (a body with a [requests] array), the
    response is [success], [results], [completed], [failed] where
    [success] is [failed == 0], [completed] is the number of results
    marked successful and [failed] the number of the others, so that
    [completed + failed] is the number of results returned; there are
    never more results than steps, and with [stop_on_error] false there
    is one result per step, so [completed + failed] is the length of the
    input array. *)
Theorem HandleBatch_counters Router (Request : @FRESTRequest E) w
  (Body : FJsonObject) (RequestsArray : list FJsonValue) :
  JsonBody Request = Some Body ->
  TryGetArrayField Body "requests" = Some RequestsArray ->
  exists (Recorded : list (TSharedPtr FJsonObject))
         (nCompleted nFailed : Z) (w' : World),
    HandleBatch (Some Router) Request w
    = ({| StatusCode := 200;
          ResponseJson :=
            Some [("success", JBool (nFailed =? 0));
                  ("results", JArray (map FJsonValueObject Recorded));
                  ("completed", JNumber (NumberOfInt32 nCompleted));
                  ("failed", JNumber (NumberOfInt32 nFailed))];
          RawBody := EmptyString |}, w')
    /\ nCompleted = CountIf ResultSucceeded Recorded
    /\ nFailed = CountIf (fun r => negb (ResultSucceeded r)) Recorded
    /\ nCompleted + nFailed = Z.of_nat (List.length Recorded)
    /\ (List.length Recorded <= List.length RequestsArray)%nat
    /\ (StopOnError Body = false ->
        nCompleted + nFailed = Z.of_nat (List.length RequestsArray)).
Proof.
  intros HB HR.
  rewrite (HandleBatch_runs Router Request w _ _ HB HR). cbv zeta.
  destruct (BatchLoop_appends Router (StopOnError Body) RequestsArray
              0 [] 0 0 w) as (Added & HRes & HC & HF & HL & HA).
  cbv zeta in *. cbn [app] in HRes.
  set (Run := BatchLoop Router (StopOnError Body) RequestsArray 0 [] 0 0 w)
    in *.
  exists Added, (Completed Run), (Failed Run), (After Run).
  pose proof (CountIf_split ResultSucceeded Added) as Hsplit.
  split; [|repeat split; try lia].
  - rewrite BatchResponse_fields, HRes. reflexivity.
  - intros Hb. rewrite <- (HA Hb). lia.
Qed.

(** The guard that opens [HandleBatch]. The route of the endpoint is
    added by [RegisterRoutes], which sets [RouterRef] first: a request
    that arrives through the router finds the pointer set, which is the
    case the properties below are about. *)
Lemma HandleBatch_without_router (Request : @FRESTRequest E) w :
  HandleBatch (@None (@FRESTRouter E World)) Request w
  = (ServerError "Router not available", w).
Proof. reflexivity. Qed.

(** C8. Whenever the body of the batch request holds a [requests]
    array, the response of the batch endpoint has status 200, whatever
    the steps did: the status is that of [FRESTResponse::Ok], and the
    failures only show in the body. *)
Theorem HandleBatch_status_200 Router (Request : @FRESTRequest E) w
  (Body : FJsonObject) (RequestsArray : list FJsonValue) :
  JsonBody Request = Some Body ->
  TryGetArrayField Body "requests" = Some RequestsArray ->
  StatusCode (fst (HandleBatch (Some Router) Request w)) = 200.
Proof.
  intros HB HR.
  now rewrite (HandleBatch_runs Router Request w _ _ HB HR).
Qed.

(** C9. If the batch request carries no JSON object as its body, or
    an object whose [requests] field is missing or is not an array, the
    batch endpoint answers 400 with [success: false],
    [error: BAD_REQUEST],
    [message: Missing required field: requests (array)]; no handler is
    run: the state is the one it was given, whatever the router holds. *)
Theorem HandleBatch_missing_requests Router (Request : @FRESTRequest E) w :
  JsonBody Request = None
  \/ (exists Body, JsonBody Request = Some Body
                   /\ forall a, Map.Find Body "requests" <> Some (JArray a)) ->
  HandleBatch (Some Router) Request w
  = ({| StatusCode := 400;
        ResponseJson :=
          Some [("success", JBool false);
                ("error", JString "BAD_REQUEST");
                ("message",
                 JString "Missing required field: requests (array)")];
        RawBody := EmptyString |}, w).
Proof.
  intros [HB | (Body & HB & Harr)]; unfold HandleBatch; rewrite HB.
  - reflexivity.
  - unfold TryGetArrayField.
    destruct (Map.Find Body "requests") as [[| | | | a |]|]; try reflexivity.
    now elim (Harr a).
Qed.

End Batch.

Section BatchSteps.

Context {E : Engine}.
Context {World : Type}.

Lemma ParseMethod_other (MethodStr : string) :
  MethodStr <> "POST" -> MethodStr <> "PUT" -> MethodStr <> "DELETE" ->
  ParseMethod MethodStr = GET.
Proof.
  intros H1 H2 H3. unfold ParseMethod.
  apply String.eqb_neq in H1, H2, H3. now rewrite H1, H2, H3.
Qed.

(** C10. For every step object, the method of the request the batch
    loop dispatches is read from the upper-cased [method] field: [POST],
    [PUT] and [DELETE] give those methods, and any other text gives
    [GET]. In that case the loop does not reject the step: it dispatches
    the [GET] request for the step's path and records the response. A
    missing [method] field and an empty one are such cases; lower case
    is accepted. *)
Theorem BatchLoop_method_default (Router : @FRESTRouter E World)
  (ReqObj : FJsonObject) :
  let MethodStr := FString.ToUpper (GetStringField ReqObj "method") in
  (forall Acc,
      (MethodStr = "POST" -> Method (BuildInternalRequest ReqObj Acc) = POST)
      /\ (MethodStr = "PUT" -> Method (BuildInternalRequest ReqObj Acc) = PUT)
      /\ (MethodStr = "DELETE" ->
          Method (BuildInternalRequest ReqObj Acc) = DELETE))
  /\ (MethodStr <> "POST" -> MethodStr <> "PUT" -> MethodStr <> "DELETE" ->
      forall (bStopOnError : bool) (Rest : list FJsonValue) (Index : Z)
             (Acc : list (TSharedPtr FJsonObject)) (nCompleted nFailed : Z)
             (w : World),
        let Request :=
          {| Path := GetStringField ReqObj "path";
             Method := GET;
             QueryParams := [];
             PathParams := [];
             Body := EmptyString;
             JsonBody := JsonBody (BuildInternalRequest ReqObj Acc) |} in
        BuildInternalRequest ReqObj Acc = Request
        /\ BatchLoop Router bStopOnError (JObject ReqObj :: Rest) Index Acc
             nCompleted nFailed w
           = let (Response, w') := DispatchInternal Router Request w in
             let Acc' :=
               (Acc ++ [Some (BuildResult Index ReqObj Response)])%list in
             if Is2xx (StatusCode Response)
             then BatchLoop Router bStopOnError Rest (Index + 1) Acc'
                    (nCompleted + 1) nFailed w'
             else if bStopOnError
                  then {| Results := Acc'; Completed := nCompleted;
                          Failed := nFailed + 1; After := w' |}
                  else BatchLoop Router bStopOnError Rest (Index + 1) Acc'
                         nCompleted (nFailed + 1) w')
  /\ (Map.Find ReqObj "method" = None \/
      Map.Find ReqObj "method" = Some (JString EmptyString) ->
      forall Acc, Method (BuildInternalRequest ReqObj Acc) = GET)
  /\ (Map.Find ReqObj "method" = Some (JString "post") ->
      forall Acc, Method (BuildInternalRequest ReqObj Acc) = POST).
Proof.
  cbv zeta. split; [|split; [|split]].
  - intros Acc. unfold BuildInternalRequest. cbn [Method].
    repeat split; intros ->; reflexivity.
  - intros H1 H2 H3 bStopOnError Rest Index Acc nCompleted nFailed w.
    assert (HReq : BuildInternalRequest ReqObj Acc
                   = {| Path := GetStringField ReqObj "path";
                        Method := GET;
                        QueryParams := [];
                        PathParams := [];
                        Body := EmptyString;
                        JsonBody :=
                          JsonBody (BuildInternalRequest ReqObj Acc) |}).
    { unfold BuildInternalRequest. cbn [JsonBody].
      now rewrite (ParseMethod_other _ H1 H2 H3). }
    split; [exact HReq|].
    cbn [BatchLoop AsObject]. rewrite <- HReq. reflexivity.
  - intros [H | H] Acc; unfold BuildInternalRequest, GetStringField, GetField;
      rewrite H; reflexivity.
  - intros H Acc. unfold BuildInternalRequest, GetStringField, GetField.
    rewrite H. reflexivity.
Qed.

End BatchSteps.

Section ScenarioB.

Context {E : Engine}.

(** C1, on the code. Step 0 is [GET /first], whose handler answers
    [{"id":"abc"}]; step 1 posts the body [{"ref":"$0.id"}]. What the
    loop keeps for step 0 is the result record, with the response body
    under [data]; [$0.id] is looked up in that record, finds no [id]
    there, and the body dispatched for step 1 is still
    [{"ref":"$0.id"}], where the specification has [{"ref":"abc"}].
    The reference has to be spelled [$0.data.id] to reach the body. *)
Theorem Batch_reference_reads_result_record :
  let Run0 := Sample.FirstRun in
  Results Run0
  = [Some [("index", JNumber (NumberOfInt32 0));
           ("method", JString "GET");
           ("path", JString "/first");
           ("status", JNumber (NumberOfInt32 200));
           ("success", JBool true);
           ("data", JObject [("id", JString "abc")])]]
  /\ JsonBody (BuildInternalRequest Sample.RefStep (Results Run0))
     = Some [("ref", JString "$0.id")]
  /\ JsonBody (BuildInternalRequest Sample.RefStep (Results Run0))
     <> Some [("ref", JString "abc")]
  /\ JsonBody (BuildInternalRequest Sample.DataRefStep (Results Run0))
     = Some [("ref", JString "abc")]
  /\ Results
       (BatchLoop Sample.Router true
          [JObject Sample.FirstStep; JObject Sample.RefStep] 0 [] 0 0 [])
     = (Results Run0
        ++ [Some [("index", JNumber (NumberOfInt32 1));
                  ("method", JString "POST");
                  ("path", JString "/echo");
                  ("status", JNumber (NumberOfInt32 200));
                  ("success", JBool true);
                  ("data", JObject [("ref", JString "$0.id")])]])%list.
Proof.
  cbv zeta. repeat split; try reflexivity.
  intros H. discriminate H.
Qed.

End ScenarioB.

(** * Closed instances *)

Module Closed.

Import Sample.

Local Existing Instance Plain.

(** With no route for [GET /nowhere], the public path and the internal
    path answer with different messages. *)
Lemma HandleRequest_differs_from_DispatchInternal :
  HandleRequest NoJson Router HttpNowhere []
  <> DispatchInternal Router (ParseRequest NoJson HttpNowhere) [].
Proof. intros H. vm_compute in H. discriminate H. Qed.

(** The message of the 404 joins method and path with a colon, not with
    the space the specification writes. *)
Lemma DispatchInternal_message_has_colon :
  fst (DispatchInternal Router (Get "/nowhere") [])
  = {| StatusCode := 404;
       ResponseJson :=
         Some [("success", JBool false);
               ("error", JString "NOT_FOUND");
               ("message", JString "Route not found: GET:/nowhere")];
       RawBody := EmptyString |}
  /\ ResponseJson (fst (DispatchInternal Router (Get "/nowhere") []))
     <> Some (SpecNotFoundBody GET "/nowhere").
Proof.
  split; [reflexivity|]. intros H. vm_compute in H. discriminate H.
Qed.

Lemma DispatchInternal_unregistered_witness :
  DispatchInternal Router (Get "/nowhere") ([] : Log)
  = ({| StatusCode := 404;
        ResponseJson :=
          Some [("success", JBool false);
                ("error", JString "NOT_FOUND");
                ("message", JString "Route not found: GET:/nowhere")];
        RawBody := EmptyString |}, []).
Proof.
  exact (DispatchInternal_unregistered Router (Get "/nowhere") ([] : Log)
           eq_refl).
Defined.

(** The path [a..b] has an empty piece between its dots: split on every
    dot it names no value of [{a:{b:1}}], and [ExtractJsonPath] passes
    over the empty piece and returns [1]. *)
Lemma ExtractJsonPath_passes_empty_segment :
  SplitOnDot "a..b" = ["a"; EmptyString; "b"]
  /\ SpecResolve [("a", JObject [("b", JNumber 1)])] "a..b" = None
  /\ ExtractJsonPath (Some [("a", JObject [("b", JNumber 1)])]) "a..b"
     = Some (JNumber 1)
  /\ ExtractJsonPath (Some [("a", JObject [("b", JNumber 1)])]) "a..b"
     <> SpecResolve [("a", JObject [("b", JNumber 1)])] "a..b".
Proof.
  split; [reflexivity|]. split; [reflexivity|]. split; [reflexivity|].
  intros H. vm_compute in H. discriminate H.
Qed.

Lemma HandleBatch_halts_at_failure_witness :
  HandleBatch (Some Router)
    (BatchRequest
       [Step "GET" "/first" None; Step "GET" "/nowhere" None;
        Step "GET" "/ping" None] None) []
  = ({| StatusCode := 200;
        ResponseJson :=
          Some [("success", JBool false);
                ("results",
                 JArray
                   [JObject
                      [("index", JNumber 0); ("method", JString "GET");
                       ("path", JString "/first"); ("status", JNumber 200);
                       ("success", JBool true);
                       ("data", JObject [("id", JString "abc")])];
                    JObject
                      [("index", JNumber 1); ("method", JString "GET");
                       ("path", JString "/nowhere");
                       ("status", JNumber 404); ("success", JBool false);
                       ("data",
                        JObject
                          [("success", JBool false);
                           ("error", JString "NOT_FOUND");
                           ("message",
                            JString "Route not found: GET:/nowhere")])]]);
                ("completed", JNumber 1);
                ("failed", JNumber 1)];
        RawBody := EmptyString |}, ["GET:/first"]).
Proof.
  exact (HandleBatch_halts_at_failure Router
           (BatchRequest
              [Step "GET" "/first" None; Step "GET" "/nowhere" None;
               Step "GET" "/ping" None] None)
           [] _ _ _ _ _ _ _ _ eq_refl eq_refl eq_refl eq_refl eq_refl).
Defined.

Lemma HandleBatch_counters_witness :
  exists (Recorded : list (TSharedPtr FJsonObject))
         (nCompleted nFailed : Z) (w' : Log),
    HandleBatch (Some Router)
      (BatchRequest
         [Step "GET" "/first" None; @JNumber Plain 3;
          Step "GET" "/ping" None]
         (Some false)) []
    = ({| StatusCode := 200;
          ResponseJson :=
            Some [("success", JBool (nFailed =? 0));
                  ("results", JArray (map FJsonValueObject Recorded));
                  ("completed", JNumber (NumberOfInt32 nCompleted));
                  ("failed", JNumber (NumberOfInt32 nFailed))];
          RawBody := EmptyString |}, w')
    /\ nCompleted = CountIf ResultSucceeded Recorded
    /\ nFailed = CountIf (fun r => negb (ResultSucceeded r)) Recorded
    /\ nCompleted + nFailed = Z.of_nat (List.length Recorded)
    /\ (List.length Recorded <= 3)%nat
    /\ nCompleted + nFailed = 3.
Proof.
  destruct (HandleBatch_counters Router
              (BatchRequest
                 [Step "GET" "/first" None; @JNumber Plain 3;
                  Step "GET" "/ping" None] (Some false))
              [] _ _ eq_refl eq_refl)
    as (Recorded & nCompleted & nFailed & w' & H1 & H2 & H3 & H4 & H5 & H6).
  exists Recorded, nCompleted, nFailed, w'.
  repeat split; try assumption.
  exact (H6 eq_refl).
Defined.

Lemma HandleBatch_status_200_witness :
  StatusCode
    (fst (HandleBatch (Some Router)
            (BatchRequest
               [Step "GET" "/nowhere" None; Step "PUT" "/unbound" None]
               (Some false)) []))
  = 200
  /\ StatusCode (fst (HandleBatch (Some Router) (BatchRequest [] None) []))
     = 200.
Proof.
  split.
  - exact (HandleBatch_status_200 Router
             (BatchRequest
                [Step "GET" "/nowhere" None; Step "PUT" "/unbound" None]
                (Some false)) [] _ _ eq_refl eq_refl).
  - exact (HandleBatch_status_200 Router (BatchRequest [] None) []
             _ _ eq_refl eq_refl).
Defined.

Lemma HandleBatch_missing_requests_witness :
  HandleBatch (Some Router) (Get "/batch") []
  = ({| StatusCode := 400;
        ResponseJson :=
          Some [("success", JBool false);
                ("error", JString "BAD_REQUEST");
                ("message",
                 JString "Missing required field: requests (array)")];
        RawBody := EmptyString |}, []).
Proof.
  exact (HandleBatch_missing_requests Router (Get "/batch") []
           (or_introl eq_refl)).
Defined.

End Closed.

(** * Further properties of the router *)

Section Tables.

Context {V : Type}.

Lemma KeyEq_refl (k : string) : Map.KeyEq k k = true.
Proof. apply String.eqb_refl. Qed.

Lemma KeyEq_sym (a b : string) : Map.KeyEq a b = Map.KeyEq b a.
Proof. apply String.eqb_sym. Qed.

(** Two equal keys compare alike with every third one. *)
Lemma KeyEq_left (a b : string) :
  Map.KeyEq a b = true -> forall c, Map.KeyEq a c = Map.KeyEq b c.
Proof.
  unfold Map.KeyEq, FString.EqualsIgnoreCase. intros H c.
  apply String.eqb_eq in H. now rewrite H.
Qed.

Lemma Find_Add (m : TMap V) (k k' : string) (v : V) :
  Map.Find (Map.Add m k v) k'
  = if Map.KeyEq k k' then Some v else Map.Find m k'.
Proof.
  induction m as [|[a x] m IH]; cbn.
  - reflexivity.
  - destruct (Map.KeyEq a k) eqn:Hak; cbn.
    + rewrite (KeyEq_left a k Hak k'). now destruct (Map.KeyEq k k').
    + rewrite IH. destruct (Map.KeyEq a k') eqn:Hak'; [|reflexivity].
      now rewrite (KeyEq_sym k k'), <- (KeyEq_left a k' Hak' k), Hak.
Qed.

Lemma Find_app (m m' : TMap V) (k : string) :
  Map.Find (m ++ m')%list k
  = match Map.Find m k with Some v => Some v | None => Map.Find m' k end.
Proof.
  induction m as [|[a x] m IH]; cbn; [reflexivity|].
  now destruct (Map.KeyEq a k).
Qed.

Lemma Find_KeyEq (m : TMap V) (k k' : string) :
  Map.KeyEq k k' = true -> Map.Find m k = Map.Find m k'.
Proof.
  intros H. induction m as [|[a x] m IH]; cbn; [reflexivity|].
  rewrite (KeyEq_sym a k), (KeyEq_left k k' H a), (KeyEq_sym k' a), IH.
  reflexivity.
Qed.

Lemma Contains_Add (m : TMap V) (k k' : string) (v : V) :
  Map.Contains (Map.Add m k v) k' = Map.KeyEq k k' || Map.Contains m k'.
Proof.
  unfold Map.Contains. rewrite Find_Add.
  destruct (Map.KeyEq k k'); reflexivity.
Qed.

Lemma Add_fresh (m : TMap V) (k : string) (v : V) :
  Map.Contains m k = false -> Map.Add m k v = (m ++ [(k, v)])%list.
Proof.
  unfold Map.Contains. induction m as [|[a x] m IH]; cbn; [reflexivity|].
  destruct (Map.KeyEq a k); [discriminate|].
  intros H. now rewrite IH.
Qed.

Lemma KeysUnique_Add (m : TMap V) (k : string) (v : V) :
  KeysUnique m = true -> KeysUnique (Map.Add m k v) = true.
Proof.
  induction m as [|[a x] m IH]; cbn; [reflexivity|].
  intros H. apply andb_true_iff in H as [Ha Hm].
  destruct (Map.KeyEq a k) eqn:Hak; cbn.
  - unfold Map.Contains in *.
    rewrite <- (Find_KeyEq m a k Hak). now rewrite Ha, Hm.
  - rewrite Contains_Add, (KeyEq_sym k a), Hak, (IH Hm). cbn.
    now rewrite Ha.
Qed.

Lemma length_Add (m : TMap V) (k : string) (v : V) :
  List.length (Map.Add m k v)
  = if Map.Contains m k then List.length m else S (List.length m).
Proof.
  unfold Map.Contains. induction m as [|[a x] m IH]; cbn; [reflexivity|].
  destruct (Map.KeyEq a k); cbn; [reflexivity|].
  rewrite IH. now destruct (Map.Find m k).
Qed.

(** Adding the entries of a list one by one: the last entry of a key
    is the one that stays. *)
Lemma Find_fold_Add (l : list (string * V)) :
  forall (acc : TMap V) (k : string),
    Map.Find
      (fold_left (fun m kv => Map.Add m (fst kv) (snd kv)) l acc) k
    = match Map.Find (rev l) k with
      | Some v => Some v
      | None => Map.Find acc k
      end.
Proof.
  induction l as [|[a x] l IH]; intros acc k; cbn [fold_left rev].
  - reflexivity.
  - rewrite IH, Find_app, Find_Add. cbn [fst snd Map.Find].
    destruct (Map.Find (rev l) k); [reflexivity|].
    now destruct (Map.KeyEq a k).
Qed.

End Tables.

Section RouteTable.

Context {E : Engine}.
Context {World : Type}.

Implicit Types (Router : @FRESTRouter E World).

Lemma RouteKey_KeyEq (m m' : ERESTMethod) (p p' : string) :
  Map.KeyEq (RouteKey m p) (RouteKey m' p') = true
  <-> m = m' /\ FString.EqualsIgnoreCase p p' = true.
Proof.
  destruct m, m'; unfold Map.KeyEq, FString.EqualsIgnoreCase; cbn;
    split; try (intros H; discriminate H);
    try (intros [H _]; discriminate H);
    try (intros H; split; [reflexivity|exact H]);
    intros [_ H]; exact H.
Qed.

(** X1. The route key [METHOD:path] names one route: the table takes
    two keys for the same exactly when the methods are the same and the
    paths are the same letter case apart, whatever the paths hold,
    colons included. *)
Theorem RouteKey_names_one_route (m m' : ERESTMethod) (p p' : string) :
  Map.KeyEq (RouteKey m p) (RouteKey m' p') = true
  <-> m = m' /\ FString.EqualsIgnoreCase p p' = true.
Proof. apply RouteKey_KeyEq. Qed.

Lemma Dispatch_registered Router (Request : @FRESTRequest E)
  (Handler : @FRESTRouteHandler E World) (w : World) :
  DispatchInternal
    (RegisterRoute Router (Method Request) (Path Request) Handler) Request w
  = match Handler with
    | Some Execute => Execute Request w
    | None => (ServerError "Route handler not bound", w)
    end.
Proof.
  unfold DispatchInternal, RegisterRoute. cbn [Routes].
  now rewrite Find_Add, KeyEq_refl.
Qed.

(** The same for a path registered in another letter case. *)
Lemma Dispatch_registered_any_case Router (p : string)
  (Request : @FRESTRequest E) (Handler : @FRESTRouteHandler E World)
  (w : World) :
  FString.EqualsIgnoreCase p (Path Request) = true ->
  DispatchInternal (RegisterRoute Router (Method Request) p Handler) Request w
  = match Handler with
    | Some Execute => Execute Request w
    | None => (ServerError "Route handler not bound", w)
    end.
Proof.
  intros Hp. unfold DispatchInternal, RegisterRoute. cbn [Routes].
  rewrite Find_Add.
  replace (Map.KeyEq (RouteKey (Method Request) p)
             (RouteKey (Method Request) (Path Request))) with true;
    [reflexivity|].
  symmetry. apply RouteKey_KeyEq. now split.
Qed.

Lemma Dispatch_other Router (m : ERESTMethod) (p : string)
  (Handler : @FRESTRouteHandler E World) (Request : @FRESTRequest E)
  (w : World) :
  m <> Method Request \/ FString.EqualsIgnoreCase p (Path Request) = false ->
  DispatchInternal (RegisterRoute Router m p Handler) Request w
  = DispatchInternal Router Request w.
Proof.
  intros Hne. unfold DispatchInternal, RegisterRoute. cbn [Routes].
  rewrite Find_Add.
  destruct (Map.KeyEq (RouteKey m p)
              (RouteKey (Method Request) (Path Request))) eqn:Hk;
    [|reflexivity].
  apply RouteKey_KeyEq in Hk. destruct Hk as [Hm Hp].
  destruct Hne as [Hne | Hne]; [contradiction|].
  rewrite Hp in Hne. discriminate Hne.
Qed.

(** X2. A request for a route just registered is served by the handler
    registered: [DispatchInternal] runs it if it is bound and answers
    500 [Route handler not bound] if it is not, whatever the table held
    before for that method and path. *)
Theorem DispatchInternal_after_RegisterRoute Router
  (Request : @FRESTRequest E) (Handler : @FRESTRouteHandler E World)
  (w : World) :
  DispatchInternal
    (RegisterRoute Router (Method Request) (Path Request) Handler) Request w
  = match Handler with
    | Some Execute => Execute Request w
    | None => (ServerError "Route handler not bound", w)
    end.
Proof. apply Dispatch_registered. Qed.

(** X3. Registering a route changes nothing for the requests of
    another method, or of a path that differs from the registered one
    by more than letter case: they are dispatched as before. *)
Theorem DispatchInternal_other_route Router (m : ERESTMethod) (p : string)
  (Handler : @FRESTRouteHandler E World) (Request : @FRESTRequest E)
  (w : World) :
  m <> Method Request \/ FString.EqualsIgnoreCase p (Path Request) = false ->
  DispatchInternal (RegisterRoute Router m p Handler) Request w
  = DispatchInternal Router Request w.
Proof. apply Dispatch_other. Qed.

(** The table after a list of registrations, from the first on. *)
Lemma KeysUnique_registrations
  (Regs : list (ERESTMethod * string * @FRESTRouteHandler E World)) :
  forall Router,
    KeysUnique (Routes Router) = true ->
    KeysUnique
      (Routes
         (fold_left
            (fun R Reg => RegisterRoute R (fst (fst Reg)) (snd (fst Reg))
                            (snd Reg))
            Regs Router)) = true.
Proof.
  induction Regs as [|[[m p] h] Regs IH]; intros Router H; cbn [fold_left].
  - exact H.
  - apply IH. unfold RegisterRoute. cbn [Routes fst snd].
    now apply KeysUnique_Add.
Qed.

(** X4. However many routes are registered on a new router, and in
    whatever order, the table never holds two entries for one key, two
    keys that differ by letter case only being one key, and registering
    a route that is already there replaces its handler without adding an
    entry. *)
Theorem RegisterRoute_keeps_one_entry_per_route
  (Regs : list (ERESTMethod * string * @FRESTRouteHandler E World))
  (m : ERESTMethod) (p : string) (Handler : @FRESTRouteHandler E World) :
  let Router :=
    fold_left
      (fun R Reg => RegisterRoute R (fst (fst Reg)) (snd (fst Reg))
                      (snd Reg))
      Regs {| Routes := [] |} in
  KeysUnique (Routes Router) = true
  /\ KeysUnique (Routes (RegisterRoute Router m p Handler)) = true
  /\ List.length (Routes (RegisterRoute Router m p Handler))
     = (if Map.Contains (Routes Router) (RouteKey m p)
        then List.length (Routes Router)
        else S (List.length (Routes Router))).
Proof.
  cbv zeta.
  assert (H : KeysUnique
                (Routes
                   (fold_left
                      (fun R Reg =>
                         RegisterRoute R (fst (fst Reg)) (snd (fst Reg))
                           (snd Reg))
                      Regs {| Routes := [] |})) = true)
    by now apply KeysUnique_registrations.
  split; [exact H|]. split.
  - unfold RegisterRoute at 1. cbn [Routes]. now apply KeysUnique_Add.
  - unfold RegisterRoute at 1. cbn [Routes]. apply length_Add.
Qed.

End RouteTable.

Section Transport.

Context {E : Engine}.
Context {World : Type}.

Lemma StartsWith_slash (s : string) :
  FString.StartsWith "/" s = true -> exists Rest, s = String "/" Rest.
Proof.
  destruct s as [|c Rest]; [discriminate|].
  intros H. exists Rest. f_equal.
  destruct c as [[] [] [] [] [] [] [] []]; vm_compute in H;
    try discriminate H; reflexivity.
Qed.

(** X5. Whatever path the transport delivers, the path of the parsed
    request starts with a slash; it is never empty. *)
Theorem ParseRequest_path_starts_with_slash
  (Deserialize : string -> TSharedPtr FJsonObject)
  (Request : FHttpServerRequest) :
  exists Rest, Path (ParseRequest Deserialize Request) = String "/" Rest.
Proof.
  unfold ParseRequest. cbn [Path].
  set (Path0 := if FString.StartsWith "/api/v1" (RelativePath Request)
                then _ else _).
  destruct (FString.StartsWith "/" Path0) eqn:Hs; cbn [negb].
  - destruct (StartsWith_slash _ Hs) as [Rest ->]. now exists Rest.
  - now exists Path0.
Qed.

(** X6. A path that carries the prefix [/api/v1] loses it: what
    follows the prefix is the path of the parsed request, with a slash
    put in front when it does not start with one, so that [/api/v1]
    alone gives [/]. *)
Theorem ParseRequest_strips_prefix
  (Deserialize : string -> TSharedPtr FJsonObject)
  (Request : FHttpServerRequest) (Rest : string) :
  RelativePath Request = "/api/v1" ++ Rest ->
  Path (ParseRequest Deserialize Request)
  = (if FString.StartsWith "/" Rest then Rest else "/" ++ Rest)
  /\ (Rest = EmptyString -> Path (ParseRequest Deserialize Request) = "/").
Proof.
  intros H.
  assert (HP : Path (ParseRequest Deserialize Request)
               = if FString.StartsWith "/" Rest then Rest else "/" ++ Rest).
  { unfold ParseRequest. cbn [Path]. rewrite H.
    change (FString.StartsWith "/api/v1" ("/api/v1" ++ Rest)) with true.
    change (FString.RightChop (String.length "/api/v1") ("/api/v1" ++ Rest))
      with Rest.
    cbv iota.
    destruct (FString.StartsWith "/" Rest) eqn:Hs; cbn [negb].
    - destruct (StartsWith_slash _ Hs) as [Tail ->]. reflexivity.
    - reflexivity. }
  split; [exact HP|]. intros ->. exact HP.
Qed.

(** X7. The query parameters of the parsed request are those of the
    transport request, and where the transport lists a key more than
    once the last value is the one kept. *)
Theorem ParseRequest_last_query_value_wins
  (Deserialize : string -> TSharedPtr FJsonObject)
  (Request : FHttpServerRequest) (Key : string) :
  Map.Find (QueryParams (ParseRequest Deserialize Request)) Key
  = Map.Find (rev (HttpQueryParams Request)) Key.
Proof.
  unfold ParseRequest. cbn [QueryParams].
  rewrite Find_fold_Add. cbn [Map.Find].
  now destruct (Map.Find (rev (HttpQueryParams Request)) Key).
Qed.

(** X8. The response [HandleRequest] sends always has the HTTP code
    200 and the content type [application/json], whatever the status
    code of the response it was built from: for a route that is not
    registered, the text sent is the serialized 404 [NOT_FOUND] object,
    under code 200. *)
Theorem HandleRequest_sends_code_200
  (Serialize : FJsonObject -> string)
  (Deserialize : string -> TSharedPtr FJsonObject)
  (Router : @FRESTRouter E World) (Request : FHttpServerRequest)
  (w : World) :
  let Sent :=
    fst (HandleRequestOnComplete Serialize Deserialize Router Request w) in
  let ParsedRequest := ParseRequest Deserialize Request in
  let Key := RouteKey (Method ParsedRequest) (Path ParsedRequest) in
  Code Sent = 200
  /\ ContentType Sent = "application/json"
  /\ (Map.Find (Routes Router) Key = None ->
      StatusCode (fst (HandleRequest Deserialize Router Request w)) = 404
      /\ ResponseText Sent
         = Serialize [("success", JBool false);
                      ("error", JString "NOT_FOUND");
                      ("message", JString ("No handler for " ++ Key))]).
Proof.
  cbv zeta. unfold HandleRequestOnComplete.
  destruct (HandleRequest Deserialize Router Request w) as [Response w']
    eqn:HR.
  cbn [fst]. split; [reflexivity|]. split; [reflexivity|].
  intros Hfind. unfold HandleRequest in HR. rewrite Hfind in HR.
  injection HR as <- _. split; reflexivity.
Qed.

End Transport.

Section Lifecycle.

Context {E : Engine}.
Context {World : Type}.

Implicit Types (This : @FRouterState E World) (w : World).

(** X9. Stopping twice is stopping once: a second [Stop] changes
    neither the router nor the state, so no handler is shut down a
    second time. *)
Theorem Stop_twice This w (w' : World) :
  Stop (fst (Stop This w)) w' = (fst (Stop This w), w').
Proof.
  unfold Stop.
  destruct (bIsRunning This) eqn:Hr; cbn [negb fst].
  - reflexivity.
  - now rewrite Hr.
Qed.

(** X10. Once a running router is stopped it has no route, no
    handler, no port, and every request dispatched on it is answered
    404; the handlers were shut down in the order of their
    registration. *)
Theorem Stop_clears_routes This w :
  bIsRunning This = true ->
  let Stopped := fst (Stop This w) in
  Routes (Table Stopped) = []
  /\ RegisteredHandlers Stopped = []
  /\ bIsRunning Stopped = false
  /\ CurrentPort Stopped = 0
  /\ (forall (Request : @FRESTRequest E) (w' : World),
         DispatchInternal (Table Stopped) Request w'
         = (NotFound ("Route not found: "
                      ++ RouteKey (Method Request) (Path Request)), w'))
  /\ snd (Stop This w)
     = fold_left
         (fun w' Handler =>
            match Handler with
            | Some H => Shutdown H w'
            | None => w'
            end)
         (RegisteredHandlers This) w.
Proof.
  intros Hr. cbv zeta. unfold Stop. rewrite Hr. cbn [negb fst snd].
  repeat split.
Qed.

Section WithDelegates.

Variable CaptureThis :
  (@FRouterState E World -> @FRESTRequest E -> @FRESTResponse E) ->
  @FRESTRequest E -> World -> @FRESTResponse E * World.

(** X11. [Start] succeeds exactly when the router is not running and
    the engine yields both an HTTP router for the port and a route
    handle. When it fails, the route table, the handlers, the port and
    the running flag are left as they were; when it succeeds the router
    runs on the port asked for, with the handlers it had. *)
Theorem Start_outcome (Http : FHttpServerModule) This (Port : Z) :
  let Started := Start CaptureThis Http This Port in
  fst Started
  = negb (bIsRunning This) && GetHttpRouter Http Port && BindRoute Http
  /\ RegisteredHandlers (snd Started) = RegisteredHandlers This
  /\ (fst Started = false ->
      Table (snd Started) = Table This
      /\ bIsRunning (snd Started) = bIsRunning This
      /\ CurrentPort (snd Started) = CurrentPort This)
  /\ (fst Started = true ->
      bIsRunning (snd Started) = true /\ CurrentPort (snd Started) = Port).
Proof.
  cbv zeta. unfold Start.
  destruct (bIsRunning This) eqn:Hr; cbn [negb andb fst snd].
  - repeat split; intros; try discriminate; try assumption.
  - destruct (GetHttpRouter Http Port); cbn [negb andb fst snd].
    + destruct (BindRoute Http); cbn [negb andb fst snd];
        repeat split; intros; try discriminate; try assumption.
    + repeat split; intros; try discriminate; try assumption.
Qed.

Lemma Equals_other (a b p : string) :
  FString.EqualsIgnoreCase a p = true ->
  FString.EqualsIgnoreCase a b = false ->
  FString.EqualsIgnoreCase b p = false.
Proof.
  unfold FString.EqualsIgnoreCase. intros H1 H2.
  apply String.eqb_eq in H1. now rewrite <- H1, String.eqb_sym.
Qed.

(** X12. After a successful [Start], [GET /health] and [GET /handlers],
    in whatever letter case the path is written, are served by the two
    built-in lambdas, whatever was registered for them before, and every
    request of another method or another path is dispatched as
    before. *)
Theorem Start_binds_builtin_routes (Http : FHttpServerModule) This
  (Port : Z) :
  fst (Start CaptureThis Http This Port) = true ->
  let Started := Table (snd (Start CaptureThis Http This Port)) in
  forall (Request : @FRESTRequest E) w,
    (Method Request = GET ->
     FString.EqualsIgnoreCase "/health" (Path Request) = true ->
     DispatchInternal Started Request w
     = CaptureThis HealthLambda Request w)
    /\ (Method Request = GET ->
        FString.EqualsIgnoreCase "/handlers" (Path Request) = true ->
        DispatchInternal Started Request w
        = CaptureThis HandlersLambda Request w)
    /\ (Method Request <> GET
        \/ (FString.EqualsIgnoreCase "/health" (Path Request) = false
            /\ FString.EqualsIgnoreCase "/handlers" (Path Request) = false) ->
        DispatchInternal Started Request w
        = DispatchInternal (Table This) Request w).
Proof.
  intros Hok. cbv zeta. unfold Start in *.
  destruct (bIsRunning This); [discriminate Hok|].
  destruct (GetHttpRouter Http Port); cbn [negb] in *; [|discriminate Hok].
  destruct (BindRoute Http); cbn [negb] in *; [|discriminate Hok].
  cbn [snd Table]. intros Request w. split; [|split].
  - intros Hm Hp.
    rewrite Dispatch_other
      by (right; apply (Equals_other "/health" "/handlers" _ Hp);
          reflexivity).
    rewrite <- Hm. now apply Dispatch_registered_any_case.
  - intros Hm Hp. rewrite <- Hm. now apply Dispatch_registered_any_case.
  - intros Hne.
    rewrite !Dispatch_other; [reflexivity| |];
      (destruct Hne as [Hm | [Hh Hl]];
       [left; congruence | right; assumption]).
Qed.

(** X13. The start-up of the module: [Start], then the infrastructure
    handler registered. [GET /health] is then served by the handler's
    delegate, not by the lambda [Start] had bound; [GET /handlers] is
    still the built-in one; [GET /schema] and [POST /batch] are the
    handler's; and the handler is the last of the registered ones. *)
Theorem Startup_routes (Http : FHttpServerModule) This (Port : Z)
  (HealthDelegate SchemaDelegate BatchDelegate
     : @FRESTRequest E -> World -> @FRESTResponse E * World) :
  fst (Start CaptureThis Http This Port) = true ->
  let Infra :=
    FInfrastructureHandler HealthDelegate SchemaDelegate BatchDelegate in
  let Ready :=
    RegisterHandler (snd (Start CaptureThis Http This Port)) (Some Infra) in
  RegisteredHandlers Ready
  = (RegisteredHandlers This ++ [Some Infra])%list
  /\ forall (Request : @FRESTRequest E) w,
      (Method Request = GET -> Path Request = "/health" ->
       DispatchInternal (Table Ready) Request w = HealthDelegate Request w)
      /\ (Method Request = GET -> Path Request = "/handlers" ->
          DispatchInternal (Table Ready) Request w
          = CaptureThis HandlersLambda Request w)
      /\ (Method Request = GET -> Path Request = "/schema" ->
          DispatchInternal (Table Ready) Request w
          = SchemaDelegate Request w)
      /\ (Method Request = POST -> Path Request = "/batch" ->
          DispatchInternal (Table Ready) Request w
          = BatchDelegate Request w).
Proof.
  intros Hok. cbv zeta. unfold Start in *.
  destruct (bIsRunning This); [discriminate Hok|].
  destruct (GetHttpRouter Http Port); cbn [negb] in *; [|discriminate Hok].
  destruct (BindRoute Http); cbn [negb] in *; [|discriminate Hok].
  cbn [snd RegisterHandler Table RegisteredHandlers FInfrastructureHandler
       RegisterRoutes].
  split; [reflexivity|]. unfold InfrastructureRegisterRoutes.
  intros Request w. repeat split; intros Hm Hp.
  - rewrite !Dispatch_other
      by (right; rewrite Hp; reflexivity).
    rewrite <- Hm, <- Hp. apply Dispatch_registered.
  - rewrite !Dispatch_other
      by (first [left; rewrite Hm; discriminate
                | right; rewrite Hp; reflexivity]).
    rewrite <- Hm, <- Hp. apply Dispatch_registered.
  - rewrite Dispatch_other
      by (left; rewrite Hm; discriminate).
    rewrite <- Hm, <- Hp. apply Dispatch_registered.
  - rewrite <- Hm, <- Hp. apply Dispatch_registered.
Qed.

End WithDelegates.

End Lifecycle.

(** * Properties of the schema endpoint *)

Section SchemaLookup.

Context {E : Engine}.
Context {World : Type}.

Implicit Types (Handlers : list (TSharedPtr (@IRESTHandler E World))).
Implicit Types (H : @IRESTHandler E World).

Lemma ToUpperChar_twice (c : ascii) :
  FString.ToUpperChar (FString.ToUpperChar c) = FString.ToUpperChar c.
Proof.
  destruct c as [[] [] [] [] [] [] [] []]; reflexivity.
Qed.

Lemma ToUpper_twice (s : string) :
  FString.ToUpper (FString.ToUpper s) = FString.ToUpper s.
Proof.
  induction s as [|c s IH]; cbn; [reflexivity|].
  now rewrite ToUpperChar_twice, IH.
Qed.

Lemma FindHandlerByName_first Handlers (Name : string) :
  match FindHandlerByName Handlers Name with
  | Some H =>
      exists Before After,
        Handlers = (Before ++ Some H :: After)%list
        /\ FString.EqualsIgnoreCase (GetHandlerName H) Name = true
        /\ forall H', In (Some H') Before ->
                      FString.EqualsIgnoreCase (GetHandlerName H') Name
                      = false
  | None =>
      forall H', In (Some H') Handlers ->
                 FString.EqualsIgnoreCase (GetHandlerName H') Name = false
  end.
Proof.
  induction Handlers as [|[H0|] Rest IH]; cbn [FindHandlerByName].
  - intros H' [].
  - destruct (FString.EqualsIgnoreCase (GetHandlerName H0) Name) eqn:Heq.
    + exists [], Rest. repeat split; [exact Heq|]. intros H' [].
    + destruct (FindHandlerByName Rest Name) as [H|].
      * destruct IH as (Before & After & -> & Hm & Hb).
        exists (Some H0 :: Before), After. repeat split; [exact Hm|].
        intros H' [Hin | Hin]; [now injection Hin as <-|now apply Hb].
      * intros H' [Hin | Hin]; [now injection Hin as <-|now apply IH].
  - destruct (FindHandlerByName Rest Name) as [H|].
    + destruct IH as (Before & After & -> & Hm & Hb).
      exists (None :: Before), After. repeat split; [exact Hm|].
      intros H' [Hin | Hin]; [discriminate Hin|now apply Hb].
    + intros H' [Hin | Hin]; [discriminate Hin|now apply IH].
Qed.

Lemma FindHandlerByName_upper Handlers (Name : string) :
  FindHandlerByName Handlers (FString.ToUpper Name)
  = FindHandlerByName Handlers Name.
Proof.
  induction Handlers as [|[H0|] Rest IH]; cbn [FindHandlerByName];
    [reflexivity| |exact IH].
  unfold FString.EqualsIgnoreCase. now rewrite ToUpper_twice, IH.
Qed.

(** X14. [FindHandlerByName] returns the first registered handler
    whose name is the one asked for, letter case apart, and returns
    nothing exactly when no registered handler has that name; asking
    with the name in upper case gives the same answer. *)
Theorem FindHandlerByName_finds_first Handlers (Name : string) :
  match FindHandlerByName Handlers Name with
  | Some H =>
      exists Before After,
        Handlers = (Before ++ Some H :: After)%list
        /\ FString.EqualsIgnoreCase (GetHandlerName H) Name = true
        /\ forall H', In (Some H') Before ->
                      FString.EqualsIgnoreCase (GetHandlerName H') Name
                      = false
  | None =>
      forall H', In (Some H') Handlers ->
                 FString.EqualsIgnoreCase (GetHandlerName H') Name = false
  end
  /\ FindHandlerByName Handlers (FString.ToUpper Name)
     = FindHandlerByName Handlers Name.
Proof.
  split; [apply FindHandlerByName_first|apply FindHandlerByName_upper].
Qed.

Lemma BetterMatch_fold (EndpointPath : string) Handlers :
  forall (Seen : list (TSharedPtr (@IRESTHandler E World)))
         (Best : TSharedPtr (@IRESTHandler E World)),
    (forall H, Best = Some H ->
               In (Some H) Seen
               /\ FString.StartsWith (GetBasePath H) EndpointPath = true
               /\ 0 < BestLength Best) ->
    (forall H', In (Some H') Seen ->
                FString.StartsWith (GetBasePath H') EndpointPath = true ->
                Z.of_nat (String.length (GetBasePath H')) <= BestLength Best) ->
    let Final :=
      fst (fold_left (BetterMatch EndpointPath) Handlers
             (Best, BestLength Best)) in
    (forall H, Final = Some H ->
               In (Some H) (Seen ++ Handlers)%list
               /\ FString.StartsWith (GetBasePath H) EndpointPath = true
               /\ 0 < BestLength Final)
    /\ (forall H', In (Some H') (Seen ++ Handlers)%list ->
                   FString.StartsWith (GetBasePath H') EndpointPath = true ->
                   Z.of_nat (String.length (GetBasePath H'))
                   <= BestLength Final).
Proof.
  induction Handlers as [|Handler Rest IH]; intros Seen Best HB HS;
    cbv zeta; cbn [fold_left].
  - rewrite app_nil_r. cbn [fst]. split; assumption.
  - replace (Seen ++ Handler :: Rest)%list
      with ((Seen ++ [Handler]) ++ Rest)%list
      by (rewrite <- app_assoc; reflexivity).
    assert (Hstep :
              exists Best',
                BetterMatch EndpointPath (Best, BestLength Best) Handler
                = (Best', BestLength Best')
                /\ (forall H, Best' = Some H ->
                              In (Some H) (Seen ++ [Handler])%list
                              /\ FString.StartsWith (GetBasePath H)
                                   EndpointPath = true
                              /\ 0 < BestLength Best')
                /\ (forall H', In (Some H') (Seen ++ [Handler])%list ->
                               FString.StartsWith (GetBasePath H')
                                 EndpointPath = true ->
                               Z.of_nat (String.length (GetBasePath H'))
                               <= BestLength Best')).
    { unfold BetterMatch. cbn [snd].
      destruct Handler as [H0|].
      - destruct (FString.StartsWith (GetBasePath H0) EndpointPath) eqn:Hsw.
        + destruct (BestLength Best
                    <? Z.of_nat (String.length (GetBasePath H0))) eqn:Hlt.
          * apply Z.ltb_lt in Hlt. exists (Some H0). cbn [BestLength].
            split; [reflexivity|]. split.
            -- intros H Heq. injection Heq as <-.
               split; [apply in_or_app; right; now left|].
               split; [exact Hsw|].
               assert (0 <= BestLength Best)
                 by (destruct Best; cbn; lia).
               lia.
            -- intros H' Hin Hs'. apply in_app_or in Hin as [Hin | Hin].
               ++ specialize (HS H' Hin Hs'). lia.
               ++ destruct Hin as [Hin | []]. injection Hin as <-. lia.
          * apply Z.ltb_ge in Hlt. exists Best.
            split; [reflexivity|]. split.
            -- intros H Heq. destruct (HB H Heq) as (Hi & Hs' & Hp).
               split; [apply in_or_app; now left|]. now split.
            -- intros H' Hin Hs'. apply in_app_or in Hin as [Hin | Hin].
               ++ now apply HS.
               ++ destruct Hin as [Hin | []]. injection Hin as <-. exact Hlt.
        + exists Best. split; [reflexivity|]. split.
          * intros H Heq. destruct (HB H Heq) as (Hi & Hs' & Hp).
            split; [apply in_or_app; now left|]. now split.
          * intros H' Hin Hs'. apply in_app_or in Hin as [Hin | Hin].
            -- now apply HS.
            -- destruct Hin as [Hin | []]. injection Hin as <-.
               rewrite Hsw in Hs'. discriminate Hs'.
      - exists Best. split; [reflexivity|]. split.
        + intros H Heq. destruct (HB H Heq) as (Hi & Hs' & Hp).
          split; [apply in_or_app; now left|]. now split.
        + intros H' Hin Hs'. apply in_app_or in Hin as [Hin | Hin].
          * now apply HS.
          * destruct Hin as [Hin | []]. discriminate Hin. }
    destruct Hstep as (Best' & -> & HB' & HS').
    exact (IH (Seen ++ [Handler])%list Best' HB' HS').
Qed.

Lemma FindHandlerByEndpoint_bounds Handlers (EndpointPath : string) :
  (forall H, FindHandlerByEndpoint Handlers EndpointPath = Some H ->
             In (Some H) Handlers
             /\ FString.StartsWith (GetBasePath H) EndpointPath = true
             /\ 0 < BestLength (FindHandlerByEndpoint Handlers EndpointPath))
  /\ (forall H', In (Some H') Handlers ->
                 FString.StartsWith (GetBasePath H') EndpointPath = true ->
                 Z.of_nat (String.length (GetBasePath H'))
                 <= BestLength (FindHandlerByEndpoint Handlers EndpointPath)).
Proof.
  refine (BetterMatch_fold EndpointPath Handlers [] None _ _).
  - intros H Heq. discriminate Heq.
  - intros H' [].
Qed.

(** X15. [FindHandlerByEndpoint] returns a registered handler whose
    base path is not empty and starts the endpoint path (letter case
    apart), and no registered handler whose base path starts the
    endpoint path has a longer one. It returns nothing exactly when the
    only base paths that start the endpoint path are empty ones: a
    handler with an empty base path, like the infrastructure handler,
    is never the answer. *)
Theorem FindHandlerByEndpoint_longest Handlers (EndpointPath : string) :
  match FindHandlerByEndpoint Handlers EndpointPath with
  | Some H =>
      In (Some H) Handlers
      /\ FString.StartsWith (GetBasePath H) EndpointPath = true
      /\ GetBasePath H <> EmptyString
      /\ forall H', In (Some H') Handlers ->
                    FString.StartsWith (GetBasePath H') EndpointPath = true ->
                    (String.length (GetBasePath H')
                     <= String.length (GetBasePath H))%nat
  | None =>
      forall H', In (Some H') Handlers ->
                 FString.StartsWith (GetBasePath H') EndpointPath = true ->
                 GetBasePath H' = EmptyString
  end.
Proof.
  destruct (FindHandlerByEndpoint_bounds Handlers EndpointPath) as [HB HS].
  destruct (FindHandlerByEndpoint Handlers EndpointPath) as [H|].
  - destruct (HB H eq_refl) as (Hin & Hsw & Hpos).
    split; [exact Hin|]. split; [exact Hsw|]. split.
    + intros Hempty. cbn [BestLength] in Hpos. rewrite Hempty in Hpos.
      cbn in Hpos. lia.
    + intros H' Hin' Hsw'. specialize (HS H' Hin' Hsw').
      cbn [BestLength] in HS. lia.
  - intros H' Hin' Hsw'. specialize (HS H' Hin' Hsw').
    cbn [BestLength] in HS.
    destruct (GetBasePath H'); [reflexivity|]. cbn in HS. lia.
Qed.

End SchemaLookup.

Section SchemaAnswers.

Context {E : Engine}.
Context {World : Type}.

Implicit Types (Handlers : list (TSharedPtr (@IRESTHandler E World))).
Implicit Types (H : @IRESTHandler E World).

Lemma Find_rev_unique {V : Type} (l : TMap V) (k : string) :
  KeysUnique l = true -> Map.Find (rev l) k = Map.Find l k.
Proof.
  induction l as [|[a x] l IH]; cbn [rev KeysUnique Map.Find];
    [reflexivity|].
  intros Hu. apply andb_true_iff in Hu as [Ha Hl].
  rewrite Find_app, (IH Hl). cbn [Map.Find].
  destruct (Map.KeyEq a k) eqn:Hak.
  - unfold Map.Contains in Ha. rewrite (Find_KeyEq l a k Hak) in Ha.
    now destruct (Map.Find l k).
  - now destruct (Map.Find l k).
Qed.

Lemma Find_rev_None {V : Type} (l : TMap V) (k : string) :
  Map.Find l k = None -> Map.Find (rev l) k = None.
Proof.
  induction l as [|[a x] l IH]; cbn [rev Map.Find]; [reflexivity|].
  destruct (Map.KeyEq a k) eqn:Hak; [discriminate|].
  intros Hl. rewrite Find_app, (IH Hl). cbn [Map.Find]. now rewrite Hak.
Qed.

Lemma Find_EndpointFound H (Endpoint : FJsonObject) (k : string) :
  Map.Find (EndpointFound H Endpoint) k
  = match Map.Find (rev Endpoint) k with
    | Some v => Some v
    | None =>
        Map.Find [("success", JBool true);
                  ("handler", JString (GetHandlerName H))] k
    end.
Proof.
  unfold EndpointFound.
  exact (Find_fold_Add Endpoint
           (SetStringField (SetBoolField MakeSharedObject "success" true)
              "handler" (GetHandlerName H)) k).
Qed.

Lemma SearchEndpoints_sound H (Endpoints : list FJsonObject)
  (EndpointPath : string) :
  match SearchEndpoints H Endpoints EndpointPath with
  | Some Response =>
      exists Endpoint SchemaPath,
        In Endpoint Endpoints
        /\ TryGetStringField Endpoint "path" = Some SchemaPath
        /\ EndpointMatches SchemaPath EndpointPath = true
        /\ Response = EndpointFound H Endpoint
  | None =>
      forall Endpoint SchemaPath,
        In Endpoint Endpoints ->
        TryGetStringField Endpoint "path" = Some SchemaPath ->
        EndpointMatches SchemaPath EndpointPath = false
  end.
Proof.
  induction Endpoints as [|Endpoint Rest IH]; cbn [SearchEndpoints].
  - intros Endpoint SchemaPath [].
  - destruct (TryGetStringField Endpoint "path") as [SchemaPath|] eqn:Hp.
    + destruct (EndpointMatches SchemaPath EndpointPath) eqn:Hm.
      * exists Endpoint, SchemaPath. repeat split; try assumption.
        now left.
      * destruct (SearchEndpoints H Rest EndpointPath) as [Response|].
        -- destruct IH as (Ep & Sp & Hin & Hp' & Hm' & ->).
           exists Ep, Sp. repeat split; try assumption. now right.
        -- intros Ep Sp [<- | Hin] Hp'.
           ++ rewrite Hp in Hp'. now injection Hp' as <-.
           ++ now apply (IH Ep Sp).
    + destruct (SearchEndpoints H Rest EndpointPath) as [Response|].
      * destruct IH as (Ep & Sp & Hin & Hp' & Hm' & ->).
        exists Ep, Sp. repeat split; try assumption. now right.
      * intros Ep Sp [<- | Hin] Hp'.
        -- rewrite Hp in Hp'. discriminate Hp'.
        -- now apply (IH Ep Sp).
Qed.

Lemma SearchHandlers_sound Handlers (EndpointPath : string) :
  match SearchHandlers Handlers EndpointPath with
  | Some Response =>
      exists H Endpoint SchemaPath,
        In (Some H) Handlers
        /\ In Endpoint (GetEndpointSchemas H)
        /\ TryGetStringField Endpoint "path" = Some SchemaPath
        /\ EndpointMatches SchemaPath EndpointPath = true
        /\ Response = EndpointFound H Endpoint
  | None =>
      forall H Endpoint SchemaPath,
        In (Some H) Handlers ->
        In Endpoint (GetEndpointSchemas H) ->
        TryGetStringField Endpoint "path" = Some SchemaPath ->
        EndpointMatches SchemaPath EndpointPath = false
  end.
Proof.
  induction Handlers as [|[H0|] Rest IH]; cbn [SearchHandlers].
  - intros H Endpoint SchemaPath [].
  - pose proof (SearchEndpoints_sound H0 (GetEndpointSchemas H0)
                  EndpointPath) as H0s.
    destruct (SearchEndpoints H0 (GetEndpointSchemas H0) EndpointPath)
      as [Response|].
    + destruct H0s as (Ep & Sp & Hin & Hp & Hm & ->).
      exists H0, Ep, Sp. repeat split; try assumption. now left.
    + destruct (SearchHandlers Rest EndpointPath) as [Response|].
      * destruct IH as (H & Ep & Sp & HinH & Hin & Hp & Hm & ->).
        exists H, Ep, Sp. repeat split; try assumption. now right.
      * intros H Ep Sp [HinH | HinH] Hin Hp.
        -- injection HinH as <-. now apply (H0s Ep Sp).
        -- now apply (IH H Ep Sp).
  - destruct (SearchHandlers Rest EndpointPath) as [Response|].
    + destruct IH as (H & Ep & Sp & HinH & Hin & Hp & Hm & ->).
      exists H, Ep, Sp. repeat split; try assumption. now right.
    + intros H Ep Sp [HinH | HinH] Hin Hp.
      * discriminate HinH.
      * now apply (IH H Ep Sp).
Qed.

Lemma FindHandlerByName_none Handlers (Name : string) :
  (forall H, In (Some H) Handlers ->
             FString.EqualsIgnoreCase (GetHandlerName H) Name = false) ->
  FindHandlerByName Handlers Name = None.
Proof.
  intros Hall. pose proof (FindHandlerByName_first Handlers Name) as Hf.
  destruct (FindHandlerByName Handlers Name) as [H|]; [|reflexivity].
  destruct Hf as (Before & After & -> & Hm & _).
  rewrite Hall in Hm; [discriminate Hm|].
  apply in_or_app. right. now left.
Qed.

(** X16. [BuildHandlerSchema] for a name no registered handler has
    (letter case apart) answers [success: false] with the message
    [Handler 'NAME' not found] and the names of all registered handlers;
    for a name it finds, it answers [success: true] with the name, base
    path, description and endpoint schemas of the handler found. *)
Theorem BuildHandlerSchema_answer Handlers (HandlerName : string) :
  ((forall H, In (Some H) Handlers ->
              FString.EqualsIgnoreCase (GetHandlerName H) HandlerName
              = false) ->
   BuildHandlerSchema Handlers HandlerName
   = [("success", JBool false);
      ("error", JString ("Handler '" ++ HandlerName ++ "' not found"));
      ("available_handlers", JArray (HandlerNames Handlers))])
  /\ (forall H,
         FindHandlerByName Handlers HandlerName = Some H ->
         FString.EqualsIgnoreCase (GetHandlerName H) HandlerName = true
         /\ BuildHandlerSchema Handlers HandlerName
            = [("success", JBool true);
               ("name", JString (GetHandlerName H));
               ("base_path", JString (GetBasePath H));
               ("description", JString (GetDescription H));
               ("endpoints", JArray (map JObject (GetEndpointSchemas H)))]).
Proof.
  split.
  - intros Hall. unfold BuildHandlerSchema.
    now rewrite (FindHandlerByName_none _ _ Hall).
  - intros H Hf. pose proof (FindHandlerByName_first Handlers HandlerName)
      as Hfirst.
    unfold BuildHandlerSchema. rewrite Hf in *.
    destruct Hfirst as (_ & _ & _ & Hm & _). split; [exact Hm|reflexivity].
Qed.

(** X17. [BuildEndpointSchema] either finds an endpoint schema of a
    registered handler whose [path] is the path asked for, with or
    without a leading slash and letter case apart, and answers with
    [success: true], the handler's name under [handler] and every field
    of that schema, a field of the schema named [success] or [handler]
    taking the place of those two; or no schema matches, and it answers
    [success: false] with [Endpoint 'PATH' not found] and the paths of
    all the endpoint schemas. *)
Theorem BuildEndpointSchema_answer Handlers (EndpointPath : string) :
  (exists H Endpoint SchemaPath,
      In (Some H) Handlers
      /\ In Endpoint (GetEndpointSchemas H)
      /\ TryGetStringField Endpoint "path" = Some SchemaPath
      /\ EndpointMatches SchemaPath EndpointPath = true
      /\ (KeysUnique Endpoint = true ->
          forall k v, Map.Find Endpoint k = Some v ->
                      Map.Find (BuildEndpointSchema Handlers EndpointPath) k
                      = Some v)
      /\ (Map.Find Endpoint "success" = None ->
          Map.Find (BuildEndpointSchema Handlers EndpointPath) "success"
          = Some (JBool true))
      /\ (Map.Find Endpoint "handler" = None ->
          Map.Find (BuildEndpointSchema Handlers EndpointPath) "handler"
          = Some (JString (GetHandlerName H))))
  \/ ((forall H Endpoint SchemaPath,
          In (Some H) Handlers ->
          In Endpoint (GetEndpointSchemas H) ->
          TryGetStringField Endpoint "path" = Some SchemaPath ->
          EndpointMatches SchemaPath EndpointPath = false)
      /\ BuildEndpointSchema Handlers EndpointPath
         = [("success", JBool false);
            ("error",
             JString ("Endpoint '" ++ EndpointPath ++ "' not found"));
            ("available_endpoints", JArray (AvailableEndpoints Handlers))]).
Proof.
  pose proof (SearchHandlers_sound Handlers EndpointPath) as Hs.
  unfold BuildEndpointSchema.
  destruct (SearchHandlers Handlers EndpointPath) as [Response|].
  - left. destruct Hs as (H & Ep & Sp & HinH & Hin & Hp & Hm & ->).
    exists H, Ep, Sp. repeat split; try assumption.
    + intros Hu k v Hk. rewrite Find_EndpointFound, (Find_rev_unique _ _ Hu).
      now rewrite Hk.
    + intros Hn. rewrite Find_EndpointFound, (Find_rev_None _ _ Hn).
      reflexivity.
    + intros Hn. rewrite Find_EndpointFound, (Find_rev_None _ _ Hn).
      reflexivity.
  - right. split; [exact Hs|reflexivity].
Qed.

(** X18. With its router set, the schema endpoint always answers with
    status 200: a handler or an endpoint that does not exist is reported
    in the body, with [success: false], and not by a 404. A non-empty
    [handler] parameter is answered by [BuildHandlerSchema] whatever
    else is asked; otherwise a non-empty [endpoint] parameter by
    [BuildEndpointSchema]; otherwise the full schema is returned, an
    empty parameter counting as none. *)
Theorem HandleSchema_always_200 (This : @FRouterState E World)
  (Request : @FRESTRequest E) :
  let Handlers := RegisteredHandlers This in
  let Answer := HandleSchema (Some This) Request in
  let Given (Name : string) :=
    match Map.Find (QueryParams Request) Name with
    | Some EmptyString | None => None
    | Some Value => Some Value
    end in
  StatusCode Answer = 200
  /\ ResponseJson Answer
     = Some (match Given "handler", Given "endpoint" with
             | Some HandlerName, _ => BuildHandlerSchema Handlers HandlerName
             | None, Some EndpointPath =>
                 BuildEndpointSchema Handlers EndpointPath
             | None, None => BuildFullSchema Handlers
             end)
  /\ (forall HandlerName,
         Given "handler" = Some HandlerName ->
         (forall H, In (Some H) Handlers ->
                    FString.EqualsIgnoreCase (GetHandlerName H) HandlerName
                    = false) ->
         Map.Find (BuildHandlerSchema Handlers HandlerName) "success"
         = Some (JBool false)).
Proof.
  cbv zeta. unfold HandleSchema.
  destruct (Map.Find (QueryParams Request) "handler") as [[|c hn]|];
    destruct (Map.Find (QueryParams Request) "endpoint") as [[|d ep]|];
    cbn [FString.IsEmpty negb];
    (split; [reflexivity|]); (split; [reflexivity|]);
    intros HandlerName Hg Hall; try discriminate Hg;
    unfold BuildHandlerSchema;
    rewrite (FindHandlerByName_none _ _ Hall); reflexivity.
Qed.

End SchemaAnswers.

(** * Further properties of the batch endpoint *)

Section SubstitutionMore.

Context {E : Engine}.

Implicit Types (PreviousResults : list (TSharedPtr (@FJsonObject E))).

Lemma MatchHere_other_char (c : ascii) (s : string) :
  Ascii.eqb c "$" = false -> Regex.MatchHere (String c s) = None.
Proof.
  intros H.
  destruct c as [[] [] [] [] [] [] [] []]; try reflexivity.
  vm_compute in H. discriminate H.
Qed.

Lemma FindFrom_no_dollar (s : string) :
  FString.HasChar "$" s = false -> forall Skip, Regex.FindFrom Skip s = [].
Proof.
  induction s as [|c s IH]; intros H Skip; [reflexivity|].
  cbn [FString.HasChar] in H. apply orb_false_iff in H as [Hc Hs].
  cbn [Regex.FindFrom]. destruct Skip as [|k]; [|now apply IH].
  rewrite (MatchHere_other_char c s Hc). now apply IH.
Qed.

(** X20. A string without a dollar sign holds no reference: it comes
    back from [ResolveStringVariables] as it went in, whatever the
    prior results are. *)
Theorem ResolveStringVariables_without_dollar (Value : string)
  PreviousResults :
  FString.HasChar "$" Value = false ->
  ResolveStringVariables Value PreviousResults = Value.
Proof.
  intros H. unfold ResolveStringVariables, Regex.FindAll.
  now rewrite (FindFrom_no_dollar Value H).
Qed.

Lemma ResolveMatch_nil (Result : string) (m : Regex.FRegexMatch) :
  ResolveMatch (@nil (TSharedPtr (@FJsonObject E))) Result m = Result.
Proof.
  unfold ResolveMatch. cbn [List.length].
  destruct (0 <=? FString.Atoi (Regex.CaptureGroup1 m)) eqn:H0;
    [|reflexivity].
  destruct (FString.Atoi (Regex.CaptureGroup1 m) <? Z.of_nat 0) eqn:H1;
    [|reflexivity].
  apply Z.leb_le in H0. apply Z.ltb_lt in H1. cbn in H1. lia.
Qed.

Lemma ResolveStringVariables_nil (Value : string) :
  ResolveStringVariables Value (@nil (TSharedPtr (@FJsonObject E))) = Value.
Proof.
  unfold ResolveStringVariables. apply fold_left_fixed.
  intros m _ R. apply ResolveMatch_nil.
Qed.

Lemma Contains_false_In {V : Type} (m : TMap V) (k : string) :
  Map.Contains m k = false ->
  forall F, In F m -> Map.KeyEq (fst F) k = false.
Proof.
  unfold Map.Contains. induction m as [|[a x] m IH]; cbn [Map.Find];
    intros H F [].
  - subst F. cbn [fst]. now destruct (Map.KeyEq a k).
  - destruct (Map.KeyEq a k); [discriminate H|]. now apply IH.
Qed.

Lemma Contains_app {V : Type} (m m' : TMap V) (k : string) :
  Map.Contains (m ++ m')%list k = Map.Contains m k || Map.Contains m' k.
Proof.
  unfold Map.Contains. rewrite Find_app. now destruct (Map.Find m k).
Qed.

(** Setting the fields of a list with no key twice, on an object that
    has none of them, appends them in order. *)
Lemma fold_SetField_fresh (g : FJsonValue -> FJsonValue)
  (l : list (string * FJsonValue)) :
  forall acc : FJsonObject,
    KeysUnique l = true ->
    (forall F, In F l -> Map.Contains acc (fst F) = false) ->
    fold_left (fun Resolved Field =>
                 SetField Resolved (fst Field) (g (snd Field))) l acc
    = (acc ++ map (fun Field => (fst Field, g (snd Field))) l)%list.
Proof.
  induction l as [|[k v] l IH]; intros acc Hu Hacc; cbn [fold_left map].
  - now rewrite app_nil_r.
  - cbn [KeysUnique] in Hu. apply andb_true_iff in Hu as [Hk Hl].
    apply negb_true_iff in Hk.
    unfold SetField at 2. cbn [fst snd].
    rewrite Add_fresh by (apply (Hacc (k, v)); now left).
    rewrite IH; [now rewrite <- app_assoc|exact Hl|].
    intros F HF. rewrite Contains_app, (Hacc F) by now right.
    unfold Map.Contains at 1. cbn [Map.Find orb].
    rewrite KeyEq_sym, (Contains_false_In l k Hk F HF). reflexivity.
Qed.

Lemma ResolveField_object PreviousResults
  (Values : list (string * FJsonValue)) :
  ResolveField PreviousResults (JObject Values)
  = JObject
      (fold_left
         (fun Resolved Field =>
            SetField Resolved (fst Field)
              (ResolveField PreviousResults (snd Field)))
         Values MakeSharedObject).
Proof. reflexivity. Qed.

Lemma ResolveFields_map PreviousResults
  (Values : list (string * FJsonValue)) :
  KeysUnique Values = true ->
  fold_left
    (fun Resolved Field =>
       SetField Resolved (fst Field)
         (ResolveField PreviousResults (snd Field)))
    Values MakeSharedObject
  = map (fun Field => (fst Field, ResolveField PreviousResults (snd Field)))
      Values.
Proof.
  intros Hu.
  rewrite (fold_SetField_fresh (ResolveField PreviousResults) Values
             MakeSharedObject Hu); [reflexivity|].
  intros F _. reflexivity.
Qed.

Lemma Find_map_values (g : FJsonValue -> FJsonValue)
  (l : list (string * FJsonValue)) (k : string) :
  Map.Find (map (fun Field => (fst Field, g (snd Field))) l) k
  = option_map g (Map.Find l k).
Proof.
  induction l as [|[a x] l IH]; cbn [map Map.Find fst snd option_map];
    [reflexivity|].
  now destruct (Map.KeyEq a k).
Qed.

(** X22. Substitution goes through a body field by field: the
    resolved body has the same keys in the same order; a string field
    holds its string resolved, an object field holds its object resolved
    in the same way, and any other field, an array included, holds the
    value it had. *)
Theorem ResolveVariableReferences_field_by_field PreviousResults :
  (forall Body : FJsonObject,
      KeysUnique Body = true ->
      ResolveVariableReferences (Some Body) PreviousResults
      = Some (map (fun Field =>
                     (fst Field, ResolveField PreviousResults (snd Field)))
                Body))
  /\ (forall Values : list (string * FJsonValue),
         KeysUnique Values = true ->
         ResolveField PreviousResults (JObject Values)
         = JObject
             (map (fun Field =>
                     (fst Field, ResolveField PreviousResults (snd Field)))
                Values))
  /\ (forall s,
         ResolveField PreviousResults (JString s)
         = JString (ResolveStringVariables s PreviousResults))
  /\ (forall (Body : FJsonObject) (k : string) (a : list FJsonValue),
         KeysUnique Body = true ->
         Map.Find Body k = Some (JArray a) ->
         exists Resolved,
           ResolveVariableReferences (Some Body) PreviousResults
           = Some Resolved
           /\ Map.Find Resolved k = Some (JArray a)
           /\ map fst Resolved = map fst Body).
Proof.
  split; [|split; [|split]].
  - intros Body Hu. unfold ResolveVariableReferences.
    now rewrite ResolveFields_map.
  - intros Values Hu. now rewrite ResolveField_object, ResolveFields_map.
  - reflexivity.
  - intros Body k a Hu Hk. eexists. split.
    + unfold ResolveVariableReferences. now rewrite ResolveFields_map.
    + split.
      * rewrite Find_map_values, Hk. reflexivity.
      * rewrite map_map. reflexivity.
Qed.

Lemma ResolveField_nil :
  forall v : FJsonValue,
    ObjectsUnique v = true ->
    ResolveField (@nil (TSharedPtr (@FJsonObject E))) v = v.
Proof.
  fix IH 1. intros v. destruct v as [| b | n | s | a | Values];
    intros Hu; try reflexivity.
  - cbn [ResolveField]. now rewrite ResolveStringVariables_nil.
  - cbn [ObjectsUnique] in Hu. apply andb_true_iff in Hu as [Hk Hd].
    rewrite ResolveField_object, (ResolveFields_map _ _ Hk). f_equal.
    clear Hk. induction Values as [|[k v] Values IHV]; [reflexivity|].
    cbn [forallb snd] in Hd. apply andb_true_iff in Hd as [Hv HV].
    cbn [map fst snd]. now rewrite (IH v Hv), (IHV HV).
Qed.

(** X21. The first step of a batch has no prior result to refer to:
    with an empty list of results every string is left as it is, and so
    is every body whose objects hold no key twice, references and
    all. *)
Theorem ResolveVariableReferences_first_step :
  (forall Value : string,
      ResolveStringVariables Value (@nil (TSharedPtr (@FJsonObject E)))
      = Value)
  /\ (forall Body : FJsonObject,
         ObjectsUnique (JObject Body) = true ->
         ResolveVariableReferences (Some Body)
           (@nil (TSharedPtr (@FJsonObject E)))
         = Some Body).
Proof.
  split; [apply ResolveStringVariables_nil|].
  intros Body Hu. pose proof (ResolveField_nil (JObject Body) Hu) as H.
  rewrite ResolveField_object in H. injection H as H.
  unfold ResolveVariableReferences. now rewrite H.
Qed.

End SubstitutionMore.

Section BatchMore.

Context {E : Engine}.
Context {World : Type}.

Implicit Types (Router : @FRESTRouter E World) (w : World).
Implicit Types (Acc : list (TSharedPtr (@FJsonObject E))).

Lemma StepOutcome_index Router (Index : Z) Acc (Step : FJsonValue) w
  (Result : TSharedPtr FJsonObject) (bOk : bool) (w' : World) :
  StepOutcome Router Index Acc Step w = (Result, bOk, w') ->
  ResultIndex Result = Some (JNumber (NumberOfInt32 Index)).
Proof.
  unfold StepOutcome.
  destruct (AsObject Step) as [ReqObj|].
  - destruct (DispatchInternal Router _ w) as [Response w''].
    intros H. injection H as <- _ _.
    unfold BuildResult.
    destruct (IsValid (ResponseJson Response)); reflexivity.
  - intros H. now injection H as <- _ _.
Qed.

Lemma nth_error_snoc {A : Type} (l : list A) (x y : A) (i : nat) :
  nth_error (l ++ [x]) i = Some y ->
  nth_error l i = Some y \/ (i = List.length l /\ y = x).
Proof.
  intros H. destruct (Nat.lt_ge_cases i (List.length l)) as [Hlt | Hge].
  - left. now rewrite nth_error_app1 in H.
  - right. rewrite nth_error_app2 in H by exact Hge.
    destruct (i - List.length l)%nat as [|j] eqn:Hj; cbn in H.
    + injection H as <-. split; [lia|reflexivity].
    + destruct j; discriminate H.
Qed.

Lemma BatchLoop_indices Router (bStopOnError : bool)
  (Pending : list FJsonValue) :
  forall (Index : Z) Acc (nCompleted nFailed : Z) w,
    Index = Z.of_nat (List.length Acc) ->
    (forall i R, nth_error Acc i = Some R ->
                 ResultIndex R = Some (JNumber (NumberOfInt32 (Z.of_nat i)))) ->
    forall i R,
      nth_error
        (Results (BatchLoop Router bStopOnError Pending Index Acc
                    nCompleted nFailed w)) i = Some R ->
      ResultIndex R = Some (JNumber (NumberOfInt32 (Z.of_nat i))).
Proof.
  induction Pending as [|Step Rest IH];
    intros Index Acc nCompleted nFailed w HI HAcc.
  - exact HAcc.
  - rewrite BatchLoop_cons.
    destruct (StepOutcome Router Index Acc Step w) as [[Result bOk] w'] eqn:Hs.
    apply StepOutcome_index in Hs.
    assert (HAcc' :
              forall i R, nth_error (Acc ++ [Result])%list i = Some R ->
                          ResultIndex R
                          = Some (JNumber (NumberOfInt32 (Z.of_nat i)))).
    { intros i R Hn. apply nth_error_snoc in Hn as [Hn | [-> ->]].
      - now apply HAcc.
      - now rewrite Hs, HI. }
    assert (HI' : Index + 1 = Z.of_nat (List.length (Acc ++ [Result])%list))
      by (rewrite length_app; cbn [List.length]; lia).
    cbv zeta. destruct bOk; [|destruct bStopOnError].
    + now apply IH.
    + exact HAcc'.
    + now apply IH.
Qed.

(** X23. The results of a batch are numbered by position: the result
    at position [i] of the results carries [index: i], the position of
    its step in the request array, whether the step was dispatched or
    was not a step object. *)
Theorem BatchLoop_results_in_step_order Router (bStopOnError : bool)
  (Steps : list FJsonValue) w (i : nat) (Result : TSharedPtr FJsonObject) :
  nth_error (Results (BatchLoop Router bStopOnError Steps 0 [] 0 0 w)) i
  = Some Result ->
  ResultIndex Result = Some (JNumber (NumberOfInt32 (Z.of_nat i))).
Proof.
  apply BatchLoop_indices; [reflexivity|].
  intros j R Hn. destruct j; discriminate Hn.
Qed.

Lemma BatchLoop_stop_shape Router (Pending : list FJsonValue) :
  forall (Index : Z) Acc (nCompleted nFailed : Z) w,
    let Run :=
      BatchLoop Router true Pending Index Acc nCompleted nFailed w in
    exists Succeeded Tail : list (TSharedPtr FJsonObject),
      Results Run = (Acc ++ Succeeded ++ Tail)%list
      /\ Forall (fun R => ResultSucceeded R = true) Succeeded
      /\ Completed Run = nCompleted + Z.of_nat (List.length Succeeded)
      /\ ((Tail = [] /\ Failed Run = nFailed
           /\ List.length Succeeded = List.length Pending)
          \/ (exists R, Tail = [R] /\ ResultSucceeded R = false
                        /\ Failed Run = nFailed + 1
                        /\ (List.length Succeeded < List.length Pending)%nat)).
Proof.
  induction Pending as [|Step Rest IH];
    intros Index Acc nCompleted nFailed w; cbv zeta.
  - exists [], []. cbn. rewrite app_nil_r.
    repeat split; [constructor|lia|]. left. repeat split.
  - rewrite BatchLoop_cons.
    destruct (StepOutcome Router Index Acc Step w) as [[Result bOk] w'] eqn:Hs.
    apply StepOutcome_success in Hs. cbv zeta. destruct bOk.
    + destruct (IH (Index + 1) (Acc ++ [Result])%list (nCompleted + 1)
                  nFailed w') as (Succeeded & Tail & HR & HF & HC & HT).
      cbv zeta in *. exists (Result :: Succeeded), Tail.
      rewrite HR, HC, <- app_assoc. cbn [app List.length].
      repeat split; [now constructor|lia|].
      destruct HT as [(-> & HFl & HL) | (R & -> & HRf & HFl & HL)].
      * left. repeat split; [exact HFl|now rewrite HL].
      * right. exists R. repeat split; try assumption. lia.
    + exists [], [Result]. cbn [Results Completed Failed app List.length].
      repeat split; [constructor|lia|].
      right. exists Result. repeat split; [exact Hs|lia].
Qed.

(** X24. Under [stop_on_error] a batch records at most one failure,
    and it is the last result: the results are the successful ones, in
    order, followed by nothing when every step ran and succeeded, or by
    the one result that failed, after which no step was run. *)
Theorem BatchLoop_stops_at_first_failure Router (Steps : list FJsonValue) w :
  let Run := BatchLoop Router true Steps 0 [] 0 0 w in
  exists Succeeded Tail : list (TSharedPtr FJsonObject),
    Results Run = (Succeeded ++ Tail)%list
    /\ Forall (fun R => ResultSucceeded R = true) Succeeded
    /\ Completed Run = Z.of_nat (List.length Succeeded)
    /\ ((Tail = [] /\ Failed Run = 0
         /\ List.length Succeeded = List.length Steps)
        \/ (exists R, Tail = [R] /\ ResultSucceeded R = false
                      /\ Failed Run = 1
                      /\ (List.length Succeeded < List.length Steps)%nat)).
Proof.
  exact (BatchLoop_stop_shape Router Steps 0 [] 0 0 w).
Qed.

Lemma CountIf_nonneg {A : Type} (p : A -> bool) (l : list A) :
  0 <= CountIf p l.
Proof. unfold CountIf. lia. Qed.

Lemma BatchLoop_app Router (bStopOnError : bool) (First : list FJsonValue) :
  forall (Second : list FJsonValue) (Index : Z) Acc
         (nCompleted nFailed : Z) w,
    let Run1 :=
      BatchLoop Router bStopOnError First Index Acc nCompleted nFailed w in
    bStopOnError = false \/ Failed Run1 = nFailed ->
    BatchLoop Router bStopOnError (First ++ Second) Index Acc
      nCompleted nFailed w
    = BatchLoop Router bStopOnError Second
        (Index + Z.of_nat (List.length First)) (Results Run1)
        (Completed Run1) (Failed Run1) (After Run1).
Proof.
  induction First as [|Step Rest IH];
    intros Second Index Acc nCompleted nFailed w; cbv zeta.
  - intros _. cbn [app BatchLoop Results Completed Failed After List.length].
    now rewrite Z.add_0_r.
  - cbn [app]. rewrite !BatchLoop_cons.
    destruct (StepOutcome Router Index Acc Step w) as [[Result bOk] w'].
    cbv zeta. intros Hc.
    replace (Index + Z.of_nat (List.length (Step :: Rest)))
      with (Index + 1 + Z.of_nat (List.length Rest))
      by (cbn [List.length]; lia).
    destruct bOk; [now apply IH|].
    destruct bStopOnError.
    + destruct Hc as [Hc | Hc]; [discriminate Hc|].
      cbn [Failed] in Hc. lia.
    + apply IH. now left.
Qed.

(** X25. Batches compose: as long as the first part does not halt
    (there is no [stop_on_error], or none of its steps fails), running
    two lists of steps as one batch is running the first and then the
    second from where the first ended, with its results, counters and
    state, the steps of the second numbered after those of the first and
    able to refer to the results of the first. *)
Theorem BatchLoop_composes Router (bStopOnError : bool)
  (First Second : list FJsonValue) w :
  let Run1 := BatchLoop Router bStopOnError First 0 [] 0 0 w in
  bStopOnError = false \/ Failed Run1 = 0 ->
  BatchLoop Router bStopOnError (First ++ Second) 0 [] 0 0 w
  = BatchLoop Router bStopOnError Second (Z.of_nat (List.length First))
      (Results Run1) (Completed Run1) (Failed Run1) (After Run1).
Proof.
  cbv zeta. intros Hc.
  exact (BatchLoop_app Router bStopOnError First Second 0 [] 0 0 w Hc).
Qed.

Lemma BatchLoop_no_failure Router (bStopOnError : bool)
  (Pending : list FJsonValue) :
  forall (Index : Z) Acc (nCompleted nFailed : Z) w,
    let Run :=
      BatchLoop Router bStopOnError Pending Index Acc nCompleted nFailed w in
    Failed Run = nFailed ->
    exists Added : list (TSharedPtr FJsonObject),
      Results Run = (Acc ++ Added)%list
      /\ List.length Added = List.length Pending
      /\ Forall (fun R => ResultSucceeded R = true) Added
      /\ Completed Run = nCompleted + Z.of_nat (List.length Pending).
Proof.
  induction Pending as [|Step Rest IH];
    intros Index Acc nCompleted nFailed w; cbv zeta.
  - intros _. exists []. cbn. rewrite app_nil_r.
    repeat split; [constructor|lia].
  - rewrite BatchLoop_cons.
    destruct (StepOutcome Router Index Acc Step w) as [[Result bOk] w'] eqn:Hs.
    apply StepOutcome_success in Hs. cbv zeta.
    destruct bOk; [|destruct bStopOnError].
    + intros HF.
      destruct (IH (Index + 1) (Acc ++ [Result])%list (nCompleted + 1)
                  nFailed w' HF) as (Added & HR & HL & HA & HC).
      exists (Result :: Added). rewrite HR, HC, <- app_assoc.
      cbn [app List.length]. repeat split; [now rewrite HL|now constructor|lia].
    + cbn [Failed]. lia.
    + intros HF.
      destruct (BatchLoop_appends Router false Rest (Index + 1)
                  (Acc ++ [Result])%list nCompleted (nFailed + 1) w')
        as (Added & _ & _ & HF' & _).
      cbv zeta in HF'. rewrite HF in HF'.
      pose proof (CountIf_nonneg (fun r => negb (ResultSucceeded r)) Added).
      lia.
Qed.

(** X27. A batch that reports no failure ran every step: if [failed]
    is 0, so that [success] is true, there is one result per step of the
    request array, each marked successful, and [completed] is the number
    of steps, with or without [stop_on_error]. *)
Theorem BatchLoop_success_means_all_ran Router (bStopOnError : bool)
  (Steps : list FJsonValue) w :
  let Run := BatchLoop Router bStopOnError Steps 0 [] 0 0 w in
  Failed Run = 0 ->
  List.length (Results Run) = List.length Steps
  /\ Forall (fun R => ResultSucceeded R = true) (Results Run)
  /\ Completed Run = Z.of_nat (List.length Steps).
Proof.
  cbv zeta. intros HF.
  destruct (BatchLoop_no_failure Router bStopOnError Steps 0 [] 0 0 w HF)
    as (Added & HR & HL & HA & HC).
  cbn [app] in HR. rewrite HR, HC. repeat split; assumption.
Qed.

(** X26. [stop_on_error] is on unless the batch body turns it off:
    it is true when the body has no [options], when [options] is not an
    object, and when [options] has no [stop_on_error]; a boolean
    [stop_on_error] is taken as it is. *)
Theorem StopOnError_default (Body : FJsonObject) :
  (Map.Find Body "options" = None -> StopOnError Body = true)
  /\ (forall v, Map.Find Body "options" = Some v ->
                (forall Options, v <> JObject Options) ->
                StopOnError Body = true)
  /\ (forall Options, Map.Find Body "options" = Some (JObject Options) ->
                      Map.Find Options "stop_on_error" = None ->
                      StopOnError Body = true)
  /\ (forall Options b,
         Map.Find Body "options" = Some (JObject Options) ->
         Map.Find Options "stop_on_error" = Some (JBool b) ->
         StopOnError Body = b).
Proof.
  unfold StopOnError, HasField, Map.Contains, GetObjectField, GetBoolField,
    GetField.
  split; [|split; [|split]].
  - now intros ->.
  - intros v -> Hv.
    assert (Hf : AsObject v
                 = if bAsObjectYieldsEmpty then Some MakeSharedObject
                   else None).
    { destruct v; try reflexivity. now elim (Hv Values). }
    rewrite Hf. now destruct bAsObjectYieldsEmpty.
  - intros Options -> Hs. cbn [AsObject]. now rewrite Hs.
  - intros Options b -> Hs. cbn [AsObject]. now rewrite Hs.
Qed.

End BatchMore.

(** * Closed instances of the further properties *)

Module ClosedMore.

Import Sample.

Local Existing Instance Plain.

Lemma DispatchInternal_other_route_witness :
  DispatchInternal (RegisterRoute Router POST "/other" None)
    (Get "/first") ([] : Log)
  = DispatchInternal Router (Get "/first") [].
Proof.
  apply DispatchInternal_other_route. left. discriminate.
Defined.

Lemma ParseRequest_strips_prefix_witness :
  Path (ParseRequest NoJson HttpNowhere) = "/nowhere".
Proof.
  exact (proj1 (ParseRequest_strips_prefix NoJson HttpNowhere "/nowhere"
                  eq_refl)).
Defined.

Lemma Stop_clears_routes_witness :
  Routes (Table (fst (Stop Running ([] : Log)))) = []
  /\ DispatchInternal (Table (fst (Stop Running ([] : Log))))
       (Get "/health") []
     = (NotFound "Route not found: GET:/health", []).
Proof.
  destruct (Stop_clears_routes Running ([] : Log) eq_refl)
    as (HR & _ & _ & _ & HD & _).
  split; [exact HR|]. exact (HD (Get "/health") []).
Defined.

Lemma Start_binds_builtin_routes_witness :
  CurrentPort Running = 8080
  /\ DispatchInternal (Table Running) (Get "/HEALTH") ([] : Log)
     = (HealthLambda Running (Get "/HEALTH"), []).
Proof.
  split; [reflexivity|].
  exact (proj1 (Start_binds_builtin_routes CaptureLive HttpOk NewRouter 8080
                  eq_refl (Get "/HEALTH") [])
           eq_refl eq_refl).
Defined.

Lemma Startup_routes_witness :
  DispatchInternal
    (Table (RegisterHandler Running
              (Some (FInfrastructureHandler HandleFirst HandlePing
                       HandleEcho))))
    (Get "/health") ([] : Log)
  = HandleFirst (Get "/health") [].
Proof.
  exact (proj1 (proj2 (Startup_routes CaptureLive HttpOk NewRouter 8080
                         HandleFirst HandlePing HandleEcho eq_refl)
                  (Get "/health") [])
           eq_refl eq_refl).
Defined.

Lemma ResolveStringVariables_without_dollar_witness :
  ResolveStringVariables "no reference here" (Results FirstRun)
  = "no reference here".
Proof.
  exact (ResolveStringVariables_without_dollar "no reference here"
           (Results FirstRun) eq_refl).
Defined.

Lemma BatchLoop_results_in_step_order_witness :
  ResultIndex
    (nth 1
       (Results
          (BatchLoop Router false
             [Step "GET" "/first" None; @JNumber Plain 3;
              Step "GET" "/ping" None] 0 [] 0 0 []))
       None)
  = Some (JNumber 1).
Proof.
  exact (BatchLoop_results_in_step_order Router false
           [Step "GET" "/first" None; @JNumber Plain 3;
            Step "GET" "/ping" None] [] 1 _ eq_refl).
Defined.

Lemma BatchLoop_composes_witness :
  BatchLoop Router true [JObject FirstStep; JObject DataRefStep] 0 [] 0 0 []
  = BatchLoop Router true [JObject DataRefStep] 1 (Results FirstRun)
      (Completed FirstRun) (Failed FirstRun) (After FirstRun).
Proof.
  exact (BatchLoop_composes Router true [JObject FirstStep]
           [JObject DataRefStep] [] (or_intror eq_refl)).
Defined.

Lemma BatchLoop_success_means_all_ran_witness :
  List.length
    (Results
       (BatchLoop Router true [JObject FirstStep; JObject DataRefStep]
          0 [] 0 0 []))
  = 2%nat
  /\ Completed
       (BatchLoop Router true [JObject FirstStep; JObject DataRefStep]
          0 [] 0 0 [])
     = 2.
Proof.
  destruct (BatchLoop_success_means_all_ran Router true
              [JObject FirstStep; JObject DataRefStep] [] eq_refl)
    as (HL & _ & HC).
  split; [exact HL|exact HC].
Defined.

(** Keys written in another letter case are the same keys: a body
    with [Requests] is a batch, [Method] is the method of a step,
    [Options] and [Stop_On_Error] are read, [GET /FIRST] is served by
    the handler of [GET /first], registering [GET /FIRST] adds no entry,
    and [?Handler=] asks for the schema of a handler. *)
Lemma Keys_letter_case_apart :
  HandleBatch (Some Router)
    {| Path := "/batch"; Method := POST; QueryParams := [];
       PathParams := []; Body := EmptyString;
       JsonBody := Some [("Requests", JArray [Step "GET" "/ping" None])] |}
    ([] : Log)
  = (Ok (Some [("success", JBool true);
               ("results",
                JArray
                  [JObject
                     [("index", JNumber 0); ("method", JString "GET");
                      ("path", JString "/ping"); ("status", JNumber 200);
                      ("success", JBool true);
                      ("data", JObject [("pong", JBool true)])]]);
               ("completed", JNumber 1);
               ("failed", JNumber 0)]), ["GET:/ping"])
  /\ Method (BuildInternalRequest
               [("Method", Str "DELETE"); ("path", Str "/x")] [])
     = DELETE
  /\ StopOnError [("Options", JObject [("Stop_On_Error", JBool false)])]
     = false
  /\ DispatchInternal Router (Get "/FIRST") ([] : Log)
     = HandleFirst (Get "/FIRST") []
  /\ List.length (Routes (RegisterRoute Router GET "/FIRST" None))
     = List.length (Routes Router)
  /\ HandleSchema (Some Running)
       {| Path := "/schema"; Method := GET;
          QueryParams := [("Handler", "Actors")];
          PathParams := []; Body := EmptyString; JsonBody := None |}
     = Ok (Some (BuildHandlerSchema (RegisteredHandlers Running) "Actors")).
Proof. repeat split. Qed.

End ClosedMore.
